(** * modsite: vanity import pages for Go modules

    A shallow embedding of the package [modsite] (module.go, forge.go,
    site.go) and the properties of its descriptor validation, tag
    serialization and site assembly.

    Go strings are byte sequences: they are modelled as [string], whose
    characters are the bytes.  Runes are modelled as [Z]. *)

From Stdlib Require Import ZArith Ascii String Bool Lia.
From stdpp Require Import gmap strings list.

Local Open Scope Z_scope.

(** ** The Go standard library, as far as the package uses it *)

(** *** unicode/utf8 *)
Module utf8.

Definition RuneError : Z := 0xFFFD.

Definition byteZ (c : ascii) : Z := Z.of_N (N_of_ascii c).

(* Entries of the table [first]: information about the first byte of a
   UTF-8 sequence. *)
Definition xx : Z := 0xF1.
Definition as_ : Z := 0xF0.
Definition s1 : Z := 0x02.
Definition s2 : Z := 0x13.
Definition s3 : Z := 0x03.
Definition s4 : Z := 0x23.
Definition s5 : Z := 0x34.
Definition s6 : Z := 0x04.
Definition s7 : Z := 0x44.

Definition first (b : Z) : Z :=
  if b <? 0x80 then as_
  else if b <? 0xC2 then xx
  else if b <? 0xE0 then s1
  else if b =? 0xE0 then s2
  else if b <? 0xED then s3
  else if b =? 0xED then s4
  else if b <? 0xF0 then s3
  else if b =? 0xF0 then s5
  else if b <? 0xF4 then s6
  else if b =? 0xF4 then s7
  else xx.

Definition locb : Z := 0x80.
Definition hicb : Z := 0xBF.

(* acceptRanges[i] = (lo, hi): the range of a valid second byte. *)
Definition acceptRanges (i : Z) : Z * Z :=
  if i =? 0 then (locb, hicb)
  else if i =? 1 then (0xA0, hicb)
  else if i =? 2 then (locb, 0x9F)
  else if i =? 3 then (0x90, hicb)
  else (locb, 0x8F).

Definition maskx : Z := 0x3F.
Definition mask2 : Z := 0x1F.
Definition mask3 : Z := 0x0F.
Definition mask4 : Z := 0x07.

(* DecodeRuneInString: the first rune of [s] and its width in bytes;
   an invalid encoding gives (RuneError, 1), the empty string
   (RuneError, 0). *)
Definition DecodeRuneInString (s : string) : Z * nat :=
  match s with
  | EmptyString => (RuneError, 0%nat)
  | String c0 t0 =>
    let n := Z.of_nat (String.length s) in
    let b0 := byteZ c0 in
    let x := first b0 in
    (* first[b0] is as or xx here; its lowest bit tells them apart *)
    if as_ <=? x then ((if Z.testbit x 0 then RuneError else b0), 1%nat)
    else
      let sz := Z.land x 7 in
      let accept := acceptRanges (Z.shiftr x 4) in
      if n <? sz then (RuneError, 1%nat)
      else match t0 with
      | EmptyString => (RuneError, 1%nat)
      | String c1 t1 =>
        let b1 := byteZ c1 in
        if (b1 <? fst accept) || (snd accept <? b1) then (RuneError, 1%nat)
        else if sz <=? 2
        then (Z.lor (Z.shiftl (Z.land b0 mask2) 6) (Z.land b1 maskx), 2%nat)
        else match t1 with
        | EmptyString => (RuneError, 1%nat)
        | String c2 t2 =>
          let b2 := byteZ c2 in
          if (b2 <? locb) || (hicb <? b2) then (RuneError, 1%nat)
          else if sz <=? 3
          then (Z.lor (Z.lor (Z.shiftl (Z.land b0 mask3) 12)
                             (Z.shiftl (Z.land b1 maskx) 6))
                      (Z.land b2 maskx), 3%nat)
          else match t2 with
          | EmptyString => (RuneError, 1%nat)
          | String c3 _ =>
            let b3 := byteZ c3 in
            if (b3 <? locb) || (hicb <? b3) then (RuneError, 1%nat)
            else (Z.lor (Z.lor (Z.lor (Z.shiftl (Z.land b0 mask4) 18)
                                      (Z.shiftl (Z.land b1 maskx) 12))
                               (Z.shiftl (Z.land b2 maskx) 6))
                        (Z.land b3 maskx), 4%nat)
          end
        end
      end
  end.

Global Arguments DecodeRuneInString : simpl never.

(* [for i, r := range s]: the pairs (byte index, rune) of the loop, in
   order.  [skip] counts the bytes of [s] that still belong to the rune
   decoded last; [i] is the index of the first byte of [s]. *)
Fixpoint rangeFrom (s : string) (skip : nat) (i : Z) : list (Z * Z) :=
  match s with
  | EmptyString => []
  | String _ t =>
    match skip with
    | S k => rangeFrom t k (i + 1)
    | O =>
      let '(r, w) := DecodeRuneInString s in
      (i, r) :: rangeFrom t (Nat.pred w) (i + 1)
    end
  end.

Definition range (s : string) : list (Z * Z) := rangeFrom s 0 0.

End utf8.

(** *** unicode *)
Module unicode.

Definition MaxLatin1 : Z := 0xFF.

(* The part of the table White_Space above Latin-1. *)
Definition White_Space_excludingLatin (r : Z) : bool :=
  (r =? 0x1680) || ((0x2000 <=? r) && (r <=? 0x200A))
  || (r =? 0x2028) || (r =? 0x2029) || (r =? 0x202F) || (r =? 0x205F)
  || (r =? 0x3000).

Definition IsSpace (r : Z) : bool :=
  if r <=? MaxLatin1 then
    (r =? 0x09) || (r =? 0x0A) || (r =? 0x0B) || (r =? 0x0C) || (r =? 0x0D)
    || (r =? 0x20) || (r =? 0x85) || (r =? 0xA0)
  else White_Space_excludingLatin r.

End unicode.

(** *** strings *)
Module strings.

Fixpoint dropBytes (n : nat) (s : string) : string :=
  match n, s with
  | O, _ => s
  | S k, String _ t => dropBytes k t
  | S _, EmptyString => EmptyString
  end.

Fixpoint takeBytes (n : nat) (s : string) : string :=
  match n, s with
  | O, _ => EmptyString
  | S k, String c t => String c (takeBytes k t)
  | S _, EmptyString => EmptyString
  end.

(* len(s) >= len(prefix) && s[:len(prefix)] == prefix *)
Definition HasPrefix (s prefix : string) : bool :=
  (String.length prefix <=? String.length s)%nat
  && bool_decide (takeBytes (String.length prefix) s = prefix).

(* len(s) >= len(suffix) && s[len(s)-len(suffix):] == suffix *)
Definition HasSuffix (s suffix : string) : bool :=
  (String.length suffix <=? String.length s)%nat
  && bool_decide
       (dropBytes (String.length s - String.length suffix) s = suffix).

Definition TrimPrefix (s prefix : string) : string :=
  if HasPrefix s prefix then dropBytes (String.length prefix) s else s.

Definition TrimSuffix (s suffix : string) : string :=
  if HasSuffix s suffix
  then takeBytes (String.length s - String.length suffix) s
  else s.

Fixpoint Join (elems : list string) (sep : string) : string :=
  match elems with
  | [] => EmptyString
  | [e] => e
  | e :: rest => e +:+ sep +:+ Join rest sep
  end.

(* indexFunc: the index of the first rune satisfying [f], or -1. *)
Fixpoint indexFuncLoop (f : Z -> bool) (l : list (Z * Z)) : Z :=
  match l with
  | [] => -1
  | (i, r) :: l' => if f r then i else indexFuncLoop f l'
  end.

Definition IndexFunc (s : string) (f : Z -> bool) : Z :=
  indexFuncLoop f (utf8.range s).

Definition ContainsFunc (s : string) (f : Z -> bool) : bool :=
  0 <=? IndexFunc s f.

(* Split(s, sep) for a separator of one byte. *)
Fixpoint SplitByte (s : string) (sep : ascii) : list string :=
  match s with
  | EmptyString => [EmptyString]
  | String c t =>
    if bool_decide (c = sep) then EmptyString :: SplitByte t sep
    else match SplitByte t sep with
         | h :: tl => String c h :: tl
         | [] => [String c EmptyString]
         end
  end.

End strings.

(** *** path/filepath (Unix: the separator is the slash, no volume names) *)
Module filepath.

Definition Separator : ascii := "/"%char.

(* One path element of [Clean]'s loop; [out] holds the elements written
   so far, the last one first.  [..] elements are only ever written at
   the start of a path that is not rooted. *)
Definition cleanElem (rooted : bool) (out : list string) (e : string)
  : list string :=
  if decide (e = "") then out
  else if decide (e = ".") then out
  else if decide (e = "..") then
    match out with
    | top :: rest =>
      if decide (top = "..") then ".." :: out else rest
    | [] => if rooted then [] else [".."]
    end
  else e :: out.

Definition Clean (path : string) : string :=
  match path with
  | EmptyString => "."
  | String c _ =>
    let rooted := bool_decide (c = Separator) in
    let out := fold_left (cleanElem rooted) (strings.SplitByte path Separator) [] in
    let body := strings.Join (rev out) "/" in
    if rooted then "/" +:+ body
    else if decide (body = "") then "." else body
  end.

(* Join: empty elements before the first non-empty one are dropped, the
   rest is joined with the separator and cleaned. *)
Fixpoint Join (elem : list string) : string :=
  match elem with
  | [] => ""
  | e :: rest =>
    if decide (e = "") then Join rest
    else Clean (strings.Join elem "/")
  end.

End filepath.

(** ** Data model (module.go, site.go) *)

(** Module holds information for a go module with a custom VCSPath. *)
Record Module_ : Type := mkModule {
  ImportPath : string;
  VCSType : string;
  RepoURL : string;
  HomePage : string;
  DirectoryLinkTemplate : string;
  FileLinkTemplate : string
}.

Definition withHomePage (m : Module_) (h : string) : Module_ :=
  {| ImportPath := ImportPath m; VCSType := VCSType m;
     RepoURL := RepoURL m; HomePage := h;
     DirectoryLinkTemplate := DirectoryLinkTemplate m;
     FileLinkTemplate := FileLinkTemplate m |}.

(** Error values.  The first seven are the package's sentinel errors, one
    constructor stands for an error reported by the template engine, the
    others for the [fmt.Errorf] call sites, with the values they format. *)
Inductive error : Type :=
| errInvalidModuleName
| errUnsupportedVCS
| errInvalidRepoURL
| errInvalidRepoSubdirectory
| errInvalidHomePage
| errInvalidDirectoryLinkTemplate
| errInvalidFileLinkTemplate
| errTemplateExec (msg : string)
| errNoValidGoImport (wrapped : error)        (* site does not have a valid go import: %w *)
| errImportingTemplate (wrapped : error)      (* error importing template: %w *)
| errBuildIndex (wrapped : error)             (* failed to build index: %w *)
| errModulePath (importPath : string)         (* failed to get module path for %q *)
| errDuplicateDestination (dest : string)     (* duplicate destination path %q *)
| errRenderHTML (importPath : string) (wrapped : error) (* failed to render html for %q: %w *)
| errRenderIndex (wrapped : error).           (* failed to render index content: %w *)

Record siteTemplateContext : Type := {
  ctxModule : Module_;
  ctxFooter : string
}.

Record siteIndexContext : Type := {
  idxURL : string;
  idxModules : gmap string string;
  idxContent : string;
  idxFooter : string
}.

(** The html/template engine and the two embedded page templates
    (site_module.html, site_index.html).  Executing a template writes
    text and may report an error. *)
Class Templates : Type := {
  (* the engine's escaper for a quoted attribute value *)
  attrEscape : string -> string;
  siteModuleTemplate : siteTemplateContext -> string * option error;
  siteIndexTemplate : siteIndexContext -> string * option error
}.

(** ** module.go *)

Definition supportedVCS : gmap string unit :=
  <["bzr" := tt]> (<["fossil" := tt]> (<["git" := tt]>
    (<["hg" := tt]> (<["svn" := tt]> ∅)))).

(** ValidateGoImport checks if this module can generate a go-import meta
    tag; [None] is the nil error. *)
Definition ValidateGoImport (m : Module_) : option error :=
  if bool_decide (ImportPath m = "")
     || strings.ContainsFunc (ImportPath m) unicode.IsSpace
  then Some errInvalidModuleName
  else
    match supportedVCS !! VCSType m with
    | None => Some errUnsupportedVCS
    | Some _ =>
      if bool_decide (RepoURL m = "")
         || strings.ContainsFunc (RepoURL m) unicode.IsSpace
      then Some errInvalidRepoURL
      else None
    end.

Definition GoImport (m : Module_) : string :=
  match ValidateGoImport m with
  | Some _ => ""
  | None =>
    let elems := [ImportPath m; VCSType m; RepoURL m] in
    strings.Join elems " "
  end.

(* fmt.Sprintf with the format of four %s verbs separated by one space *)
Definition Sprintf4 (a b c d : string) : string :=
  a +:+ " " +:+ b +:+ " " +:+ c +:+ " " +:+ d.

Definition GoSource (m : Module_) : string :=
  if bool_decide (ImportPath m = "")
     || strings.ContainsFunc (ImportPath m) unicode.IsSpace
  then ""
  else
    let m := if bool_decide (HomePage m = "")
               then withHomePage m "_" else m in
    if strings.ContainsFunc (HomePage m) unicode.IsSpace then ""
    else if bool_decide (DirectoryLinkTemplate m = "")
            || strings.ContainsFunc (DirectoryLinkTemplate m) unicode.IsSpace
    then ""
    else if bool_decide (FileLinkTemplate m = "")
            || strings.ContainsFunc (FileLinkTemplate m) unicode.IsSpace
    then ""
    else Sprintf4 (ImportPath m) (HomePage m)
                  (DirectoryLinkTemplate m) (FileLinkTemplate m).

Definition ValidateGoSource (m : Module_) : option error :=
  if bool_decide (ImportPath m = "")
     || strings.ContainsFunc (ImportPath m) unicode.IsSpace
  then Some errInvalidModuleName
  else if negb (bool_decide (HomePage m = ""))
          && strings.ContainsFunc (HomePage m) unicode.IsSpace
  then Some errInvalidHomePage
  else if bool_decide (DirectoryLinkTemplate m = "")
          || strings.ContainsFunc (DirectoryLinkTemplate m) unicode.IsSpace
  then Some errInvalidDirectoryLinkTemplate
  else if bool_decide (FileLinkTemplate m = "")
          || strings.ContainsFunc (FileLinkTemplate m) unicode.IsSpace
  then Some errInvalidFileLinkTemplate
  else None.

Definition dquote : string := String (ascii_of_nat 34) EmptyString.

(** renderMeta renders a meta tag with the given name and value: the
    template is a meta element whose name and value attributes are the two
    fields, escaped by the engine. *)
Definition renderMeta `{Templates} (name value : string) : string :=
  "<meta name=" +:+ dquote +:+ attrEscape name +:+ dquote
  +:+ " value=" +:+ dquote +:+ attrEscape value +:+ dquote +:+ ">".

Definition GoImportTag `{Templates} (m : Module_) : string :=
  let content := GoImport m in
  if bool_decide (content = "") then "" else renderMeta "go-import" content.

Definition GoSourceTag `{Templates} (m : Module_) : string :=
  let content := GoSource m in
  if bool_decide (content = "") then "" else renderMeta "go-source" content.

(** ** forge.go *)

Definition GitForgeModule (ImportPath_ RepoURL_ ref : string) : Module_ :=
  let url := strings.TrimSuffix RepoURL_ ".git" in
  let url := strings.TrimSuffix url "/" in
  {| ImportPath := ImportPath_;
     VCSType := "git";
     RepoURL := url;
     HomePage := url;
     DirectoryLinkTemplate := url +:+ "/tree/" +:+ ref +:+ "{/dir}";
     FileLinkTemplate := url +:+ "/blob/" +:+ ref +:+ "{/dir}/{file}#L{line}" |}.

(** ** site.go *)

(** Rendering is the only effect of the package: executing a template
    appends text to a writer.  The state threaded through the site code is
    the [strings.Builder] the pages are written to, with the list of
    template executions made so far. *)
Inductive TemplateCall : Type :=
| ExecSiteModule (ctx : siteTemplateContext)
| ExecSiteIndex (ctx : siteIndexContext).

Record World : Type := {
  builder : string;
  trace : list TemplateCall
}.

Definition M (A : Type) : Type := World -> A * World.

Definition ret {A : Type} (a : A) : M A := fun w => (a, w).

Definition bind {A B : Type} (c : M A) (k : A -> M B) : M B :=
  fun w => let '(a, w') := c w in k a w'.

Notation "'do' x <- c ; k" := (bind c (fun x => k))
  (at level 10, x name, c at level 100, k at level 200).

(* var builder strings.Builder, and builder.Reset() *)
Definition builderReset : M unit :=
  fun w => (tt, {| builder := ""; trace := trace w |}).

(* builder.String() *)
Definition builderString : M string := fun w => (builder w, w).

(* siteModuleTemplate.Execute(w, ctx) *)
Definition executeSiteModule `{Templates} (ctx : siteTemplateContext)
  : M (option error) :=
  fun w =>
    let '(out, err) := siteModuleTemplate ctx in
    (err, {| builder := builder w +:+ out;
             trace := trace w ++ [ExecSiteModule ctx] |}).

(* siteIndexTemplate.Execute(w, ctx) *)
Definition executeSiteIndex `{Templates} (ctx : siteIndexContext)
  : M (option error) :=
  fun w =>
    let '(out, err) := siteIndexTemplate ctx in
    (err, {| builder := builder w +:+ out;
             trace := trace w ++ [ExecSiteIndex ctx] |}).

(** RenderSite renders the site template for the given writer and footer. *)
Definition RenderSite `{Templates} (m : Module_) (footer : string)
  : M (option error) :=
  match ValidateGoImport m with
  | Some err => ret (Some (errNoValidGoImport err))
  | None =>
    do err <- executeSiteModule {| ctxModule := m; ctxFooter := footer |};
    match err with
    | Some e => ret (Some (errImportingTemplate e))
    | None => ret None
    end
  end.

Definition HomePageURL (m : Module_) : string :=
  if negb (bool_decide (HomePage m = ""))
     && negb (bool_decide (HomePage m = "_"))
  then HomePage m
  else "https://pkg.go.dev/" +:+ ImportPath m.

Definition SourceCodeURL (m : Module_) : string :=
  if bool_decide (DirectoryLinkTemplate m = "") then ""
  else if negb (bool_decide (HomePage m = ""))
          && negb (bool_decide (HomePage m = "_"))
  then HomePage m
  else "https://pkg.go.dev/" +:+ ImportPath m.

Definition getModuleHTMLPath (m : Module_) (base : string) : string * bool :=
  let realBase := strings.TrimSuffix base "/" in
  let realBase := strings.TrimPrefix realBase "/" in
  if negb (strings.HasPrefix (ImportPath m) realBase) then ("", false)
  else
    let path :=
      strings.TrimSuffix
        (strings.dropBytes (String.length realBase) (ImportPath m)) "/" in
    let path := filepath.Join [path; "index.html"] in
    (path, true).

Definition buildIndex `{Templates} (url content footer : string)
    (modules : gmap string string) : M (option error) :=
  do err <- executeSiteIndex {| idxURL := url; idxModules := modules;
                                idxContent := content; idxFooter := footer |};
  match err with
  | Some e => ret (Some (errBuildIndex e))
  | None => ret None
  end.

(* The loop of BuildSite over the modules, from the maps [files] and
   [urls] built so far: the error that ends it, or the two maps. *)
Fixpoint buildModules `{Templates} (url footerContent : string)
    (modules : list Module_) (files urls : gmap string string)
  : M (error + gmap string string * gmap string string) :=
  match modules with
  | [] => ret (inr (files, urls))
  | m :: rest =>
    let '(dest, ok) := getModuleHTMLPath m url in
    if negb ok then ret (inl (errModulePath (ImportPath m)))
    else
      let urls := <[ImportPath m := strings.TrimSuffix dest "index.html"]> urls in
      match files !! dest with
      | Some _ => ret (inl (errDuplicateDestination dest))
      | None =>
        do _ <- builderReset;
        do err <- RenderSite m footerContent;
        match err with
        | Some e => ret (inl (errRenderHTML (ImportPath m) e))
        | None =>
          do text <- builderString;
          buildModules url footerContent rest (<[dest := text]> files) urls
        end
      end
  end.

(** BuildSite builds a map of filepath to html content for an html site
    containing the given modules.  The result is the pair (files, err) of
    the Go function; [None] is nil. *)
Definition BuildSite `{Templates} (url indexContent footerContent : string)
    (modules : list Module_)
  : M (option (gmap string string) * option error) :=
  do _ <- builderReset; (* var builder strings.Builder *)
  do r <- buildModules url footerContent modules ∅ ∅;
  match r with
  | inl e => ret (None, Some e)
  | inr (files, urls) =>
    match files !! "index.html" with
    | Some _ => ret (Some files, None)
    | None =>
      do _ <- builderReset;
      do err <- buildIndex url indexContent footerContent urls;
      match err with
      | Some e => ret (None, Some (errRenderIndex e))
      | None =>
        do text <- builderString;
        ret (Some (<["index.html" := text]> files), None)
      end
    end
  end.

(* A call of BuildSite: its local builder starts empty and nothing has
   been rendered yet. *)
Definition freshWorld : World := {| builder := ""; trace := [] |}.

(** A small instance of the template engine, to run the code on concrete
    inputs: nothing is escaped, a module page is the go-import value
    followed by the footer, the index page is the index content followed by
    the footer, and no execution fails. *)
Definition plainTemplates : Templates := {|
  attrEscape := fun s => s;
  siteModuleTemplate := fun ctx =>
    (GoImport (ctxModule ctx) +:+ ctxFooter ctx, None);
  siteIndexTemplate := fun ctx => (idxContent ctx +:+ idxFooter ctx, None)
|}.

(** The descriptor of the examples. *)
Definition exampleModule : Module_ :=
  {| ImportPath := "example.org/mod"; VCSType := "git";
     RepoURL := "https://example.org/mod"; HomePage := "";
     DirectoryLinkTemplate := ""; FileLinkTemplate := "" |}.

(** A descriptor outside the base URL of the examples. *)
Definition otherModule : Module_ :=
  {| ImportPath := "other.org/x"; VCSType := "git";
     RepoURL := "https://other.org/x"; HomePage := "";
     DirectoryLinkTemplate := ""; FileLinkTemplate := "" |}.

(** ** Vocabulary of the properties *)

(** The runes of a string, as a range loop sees them. *)
Definition runes (s : string) : list Z := (utf8.range s).*2.

(** A string contains whitespace when one of its runes is a space. *)
Definition hasSpace (s : string) : Prop :=
  exists r, r ∈ runes s /\ unicode.IsSpace r = true.

(** The VCS kinds of the specification. *)
Definition vcsKinds : list string := ["bzr"; "fossil"; "git"; "hg"; "svn"].

(** The byte [c] occurs in [s]. *)
Definition hasByte (c : ascii) (s : string) : Prop :=
  exists a b, s = a +:+ String c b.

(** A string starts (ends) with whitespace when its first (last) rune is a
    space. *)
Definition leadingSpace (s : string) : bool :=
  match runes s with
  | r :: _ => unicode.IsSpace r
  | [] => false
  end.

Definition trailingSpace (s : string) : bool :=
  match last (runes s) with
  | Some r => unicode.IsSpace r
  | None => false
  end.

(** [r] is [s] with the suffix [suffix] removed once, when [s] ends with it,
    and [s] itself when it does not. *)
Definition trimmedSuffix (s suffix r : string) : Prop :=
  s = r +:+ suffix \/ ((forall p, s <> p +:+ suffix) /\ r = s).

(** The home page field of the go-source value. *)
Definition homePageOrUnderscore (m : Module_) : string :=
  if decide (HomePage m = "") then "_" else HomePage m.

(** The output path of a descriptor under a base URL, and whether it has
    one. *)
Definition pathOf (url : string) (m : Module_) : string :=
  (getModuleHTMLPath m url).1.

Definition placeable (url : string) (m : Module_) : Prop :=
  (getModuleHTMLPath m url).2 = true.

(** The outcome of rendering one page into an empty builder: the error of
    RenderSite and the text written. *)
Definition renderError `{Templates} (footer : string) (m : Module_)
  : option error :=
  (RenderSite m footer freshWorld).1.

Definition renderedPage `{Templates} (footer : string) (m : Module_) : string :=
  builder (RenderSite m footer freshWorld).2.

(** The maps a site of the given modules consists of: page text by output
    path, and canonical relative URL by import path. *)
Definition sitePages `{Templates} (url footer : string)
    (modules : list Module_) (files : gmap string string) : gmap string string :=
  foldl (fun f m => <[pathOf url m := renderedPage footer m]> f) files modules.

Definition siteURLs (url : string) (modules : list Module_)
    (urls : gmap string string) : gmap string string :=
  foldl (fun u m =>
           <[ImportPath m := strings.TrimSuffix (pathOf url m) "index.html"]> u)
        urls modules.

(** The context the index template is executed with, its outcome, and
    the execution of the module template for one descriptor. *)
Definition indexContext (url indexContent footer : string)
    (modules : list Module_) : siteIndexContext :=
  {| idxURL := url; idxModules := siteURLs url modules ∅;
     idxContent := indexContent; idxFooter := footer |}.

Definition moduleCall (footer : string) (m : Module_) : TemplateCall :=
  ExecSiteModule {| ctxModule := m; ctxFooter := footer |}.

(** The modules of a prefix of the input are all processed without
    failure: each has an output path, no two share one, and each page
    renders. *)
Definition processed `{Templates} (url footer : string)
    (pre : list Module_) : Prop :=
  Forall (placeable url) pre
  /\ NoDup (pathOf url <$> pre)
  /\ Forall (fun m => renderError footer m = None) pre.

(** An execution of the index template is recorded in the trace. *)
Definition indexSynthesized (w : World) : Prop :=
  exists ctx, ExecSiteIndex ctx ∈ trace w.

(** The base URL without one trailing and one leading slash. *)
Definition normalizedBase (url : string) : string :=
  strings.TrimPrefix (strings.TrimSuffix url "/") "/".

(** The outcome of executing the index template for a site. *)
Definition indexError `{Templates} (url indexContent footer : string)
    (modules : list Module_) : option error :=
  (siteIndexTemplate (indexContext url indexContent footer modules)).2.

Definition indexPage `{Templates} (url indexContent footer : string)
    (modules : list Module_) : string :=
  (siteIndexTemplate (indexContext url indexContent footer modules)).1.

(** The error with which the loop of BuildSite stops at the module [m]
    when the modules [pre] before it were processed: no output path, the
    path of an earlier module, or a page that does not render. *)
Definition moduleFailure `{Templates} (url footer : string)
    (pre : list Module_) (m : Module_) : option error :=
  match getModuleHTMLPath m url with
  | (_, false) => Some (errModulePath (ImportPath m))
  | (dest, true) =>
    if decide (dest ∈ (pathOf url <$> pre))
    then Some (errDuplicateDestination dest)
    else errRenderHTML (ImportPath m) <$> renderError footer m
  end.

(* The classes of a first byte: one byte (ASCII or invalid), or the lead
   byte of a sequence of [sz] bytes whose second byte lies in [lo, hi]. *)
Inductive firstClass (b : Z) : Z -> Prop :=
| fc_ascii : b < 0x80 -> firstClass b utf8.as_
| fc_invalid : 0x80 <= b -> firstClass b utf8.xx
| fc_lead x : x < utf8.as_ -> 2 <= Z.land x 7 <= 4 ->
    utf8.locb <= fst (utf8.acceptRanges (Z.shiftr x 4)) ->
    snd (utf8.acceptRanges (Z.shiftr x 4)) <= utf8.hicb ->
    0x80 <= b -> firstClass b x.

(* Case analysis on the comparisons of a goal. *)
Ltac split_conds :=
  repeat match goal with
  | |- context [?x <? ?y] => destruct (Z.ltb_spec x y)
  | |- context [?x <=? ?y] => destruct (Z.leb_spec x y)
  end.

(** Every byte of the string is below 0x80. *)
Fixpoint allASCII (s : string) : bool :=
  match s with
  | EmptyString => true
  | String c t => (utf8.byteZ c <? 0x80) && allASCII t
  end.

(** * Properties *)

(** ** Bytes and runes *)

Lemma byteZ_range (c : ascii) : 0 <= utf8.byteZ c < 256.
Proof.
  unfold utf8.byteZ. destruct c as [[] [] [] [] [] [] [] []]; vm_compute; split; congruence.
Qed.

Lemma byteZ_inj (c d : ascii) : utf8.byteZ c = utf8.byteZ d -> c = d.
Proof.
  unfold utf8.byteZ. intros E. apply N2Z.inj in E.
  rewrite <- (ascii_N_embedding c), <- (ascii_N_embedding d). by rewrite E.
Qed.

Lemma first_class (b : Z) : firstClass b (utf8.first b).
Proof.
  unfold utf8.first.
  repeat match goal with
  | |- context [?x <? ?y] => destruct (Z.ltb_spec x y)
  | |- context [?x =? ?y] => destruct (Z.eqb_spec x y)
  end;
  first [ by apply fc_ascii | apply fc_invalid; lia
        | apply fc_lead; [done | by vm_compute | by vm_compute | by vm_compute | lia] ].
Qed.

Lemma append_cons (c : ascii) (s t : string) :
  String c s +:+ t = String c (s +:+ t).
Proof. reflexivity. Qed.

Lemma append_nil_l (t : string) : "" +:+ t = t.
Proof. reflexivity. Qed.

Lemma append_nil_r (s : string) : s +:+ "" = s.
Proof. induction s as [|c s IH]; [done|]. by rewrite append_cons, IH. Qed.

Lemma append_assoc (s t u : string) : (s +:+ t) +:+ u = s +:+ (t +:+ u).
Proof. induction s as [|c s IH]; [done|]. by rewrite !append_cons, IH. Qed.

Lemma length_append (s t : string) :
  String.length (s +:+ t) = (String.length s + String.length t)%nat.
Proof. induction s as [|c s IH]; [done|]. rewrite append_cons. simpl. by rewrite IH. Qed.

Lemma decode_space (b : string) :
  utf8.DecodeRuneInString (String " " b) = (32, 1%nat).
Proof. reflexivity. Qed.

(* The width of a decoded rune: at least one byte of a non-empty string,
   never more than the string has. *)
Lemma decode_width (a : string) r w :
  utf8.DecodeRuneInString a = (r, w) ->
  (w <= String.length a)%nat /\ (a <> "" -> (1 <= w)%nat).
Proof.
  destruct a as [|c0 t]; [intros [= <- <-]; done|].
  unfold utf8.DecodeRuneInString.
  cbv zeta.
  destruct (first_class (utf8.byteZ c0)) as [?|?|x Hx Hsz Hlo Hhi Hb].
  - intros [= <- <-]. simpl; split; [lia|intros; lia].
  - intros [= <- <-]. simpl; split; [lia|intros; lia].
  - set (sz := Z.land x 7) in *.
    destruct (utf8.as_ <=? x) eqn:E; [apply Z.leb_le in E; lia|].
    destruct t as [|c1 [|c2 [|c3 t]]]; simpl String.length;
      split_conds; simpl; intros [= <- <-]; split; (lia || (intros; lia)).
Qed.

(* A space after the string does not change the rune decoded first: the
   byte 0x20 is no continuation byte, and a sequence cut short by the end
   of the string is as invalid as one cut short by a space. *)
Lemma decode_app_space (a b : string) :
  a <> "" ->
  utf8.DecodeRuneInString (a +:+ String " " b) = utf8.DecodeRuneInString a.
Proof.
  destruct a as [|c0 t]; [done|]. intros _.
  rewrite append_cons.
  unfold utf8.DecodeRuneInString.
  cbv zeta.
  destruct (first_class (utf8.byteZ c0)) as [?|?|x Hx Hsz Hlo Hhi Hb].
  - reflexivity.
  - reflexivity.
  - set (sz := Z.land x 7) in *.
    set (lo := fst (utf8.acceptRanges (Z.shiftr x 4))) in *.
    set (hi := snd (utf8.acceptRanges (Z.shiftr x 4))) in *.
    unfold utf8.locb, utf8.hicb in *.
    destruct (utf8.as_ <=? x) eqn:E; [apply Z.leb_le in E; lia|].
    assert (Hsp : utf8.byteZ " " = 32) by reflexivity.
    destruct t as [|c1 [|c2 [|c3 t]]];
      rewrite ?append_cons, ?append_nil_l; simpl String.length;
      rewrite ?Hsp;
      split_conds; simpl; try reflexivity; try lia.
Qed.

Lemma rangeFrom_app_space (a b : string) (skip : nat) (i : Z) :
  (skip <= String.length a)%nat ->
  utf8.rangeFrom (a +:+ String " " b) skip i =
  utf8.rangeFrom a skip i
  ++ (i + Z.of_nat (String.length a), 32)
     :: utf8.rangeFrom b 0 (i + Z.of_nat (String.length a) + 1).
Proof.
  revert skip i. induction a as [|c t IH]; intros skip i Hskip.
  - simpl in Hskip. assert (skip = 0%nat) as -> by lia.
    rewrite append_nil_l. simpl String.length.
    replace (i + Z.of_nat 0) with i by lia.
    reflexivity.
  - rewrite append_cons. simpl String.length in *.
    replace (i + Z.of_nat (S (String.length t)))
      with (i + 1 + Z.of_nat (String.length t)) by lia.
    destruct skip as [|k].
    + unfold utf8.rangeFrom; fold utf8.rangeFrom.
      rewrite <- append_cons, decode_app_space by done.
      destruct (utf8.DecodeRuneInString (String c t)) as [r w] eqn:E.
      apply decode_width in E as [Hw _]. simpl String.length in Hw.
      rewrite IH by lia. reflexivity.
    + simpl. apply IH. lia.
Qed.

Lemma runes_app_space (a b : string) :
  runes (a +:+ String " " b) = runes a ++ 32 :: runes b.
Proof.
  unfold runes, utf8.range.
  rewrite rangeFrom_app_space by lia.
  rewrite fmap_app, fmap_cons. simpl. do 2 f_equal.
  generalize (0 + Z.of_nat (String.length a) + 1).
  generalize 0 at 1. generalize 0%nat.
  induction b as [|c t IH]; intros k i j; [done|].
  simpl. destruct k.
  - destruct (utf8.DecodeRuneInString (String c t)) as [r w].
    simpl. f_equal. apply IH.
  - apply IH.
Qed.

Lemma rangeFrom_index (s : string) (skip : nat) (i j r : Z) :
  (j, r) ∈ utf8.rangeFrom s skip i -> i <= j.
Proof.
  revert skip i. induction s as [|c t IH]; intros skip i; simpl.
  - by intros ?%elem_of_nil.
  - destruct skip.
    + destruct (utf8.DecodeRuneInString (String c t)) as [r' w].
      intros [[= -> ->]|H]%elem_of_cons; [lia|]. apply IH in H. lia.
    + intros H%IH. lia.
Qed.

Lemma indexFuncLoop_nonneg (f : Z -> bool) (l : list (Z * Z)) :
  (forall j r, (j, r) ∈ l -> 0 <= j) ->
  (0 <=? strings.indexFuncLoop f l) = true <->
  exists r, r ∈ l.*2 /\ f r = true.
Proof.
  induction l as [|[j r] l IH]; intros Hl; simpl.
  - split; [done|]. intros (r & []%elem_of_nil & _).
  - destruct (f r) eqn:E.
    + split; [|intros _; apply Z.leb_le, (Hl j r); left].
      intros _. exists r. split; [left|done].
    + rewrite IH by (intros; eapply Hl; by right).
      split; intros (r' & Hr' & Hf); exists r'; split; auto.
      * by right.
      * apply elem_of_cons in Hr' as [->|]; [congruence|done].
Qed.

(** ContainsFunc with unicode.IsSpace decides [hasSpace]. *)
Lemma ContainsFunc_IsSpace (s : string) :
  strings.ContainsFunc s unicode.IsSpace = true <-> hasSpace s.
Proof.
  unfold strings.ContainsFunc, strings.IndexFunc, hasSpace, runes.
  apply indexFuncLoop_nonneg. intros j r H.
  by apply rangeFrom_index in H.
Qed.

Lemma ContainsFunc_IsSpace_false (s : string) :
  strings.ContainsFunc s unicode.IsSpace = false <-> ~ hasSpace s.
Proof.
  rewrite <- ContainsFunc_IsSpace. by destruct (strings.ContainsFunc _ _).
Qed.

Lemma supportedVCS_lookup (v : string) :
  is_Some (supportedVCS !! v) <-> v ∈ vcsKinds.
Proof.
  unfold supportedVCS, vcsKinds.
  rewrite !lookup_insert_is_Some', lookup_empty, !elem_of_cons, elem_of_nil.
  rewrite <- not_eq_None_Some. intuition congruence.
Qed.

(** ** Splitting on a byte *)

Lemma hasByte_cons (c d : ascii) (s : string) :
  hasByte c (String d s) <-> c = d \/ hasByte c s.
Proof.
  split.
  - intros ([|e a] & b & E).
    + injection E as -> ->. by left.
    + rewrite append_cons in E. injection E as -> ->. right. by exists a, b.
  - intros [->|(a & b & ->)].
    + by exists "", s.
    + by exists (String d a), b.
Qed.

Lemma hasByte_nil (c : ascii) : ~ hasByte c "".
Proof. by intros ([|e a] & b & E). Qed.

Lemma SplitByte_no_sep (s : string) (sep : ascii) :
  ~ hasByte sep s -> strings.SplitByte s sep = [s].
Proof.
  induction s as [|c t IH]; intros H; [done|].
  rewrite hasByte_cons in H. simpl.
  rewrite bool_decide_eq_false_2 by (intros ->; tauto).
  rewrite IH by tauto. done.
Qed.

Lemma SplitByte_app (a b : string) (sep : ascii) :
  ~ hasByte sep a ->
  strings.SplitByte (a +:+ String sep b) sep = a :: strings.SplitByte b sep.
Proof.
  induction a as [|c t IH]; intros H.
  - rewrite append_nil_l. simpl. by rewrite bool_decide_eq_true_2.
  - rewrite hasByte_cons in H. rewrite append_cons. simpl.
    rewrite bool_decide_eq_false_2 by (intros ->; tauto).
    rewrite IH by tauto. done.
Qed.

(** A string without whitespace has no space byte. *)
Lemma no_space_byte (s : string) : ~ hasSpace s -> ~ hasByte " " s.
Proof.
  intros H (a & b & ->). apply H. exists 32. split; [|done].
  rewrite runes_app_space. apply elem_of_app. right. left.
Qed.

Lemma vcsKinds_no_space (v : string) : v ∈ vcsKinds -> ~ hasSpace v.
Proof.
  intros H. apply ContainsFunc_IsSpace_false.
  unfold vcsKinds in H. rewrite !elem_of_cons, elem_of_nil in H.
  repeat destruct H as [->|H]; try done.
Qed.

Lemma runes_cons (c : ascii) (t : string) :
  exists r rs, runes (String c t) = r :: rs.
Proof.
  unfold runes, utf8.range. simpl.
  destruct (utf8.DecodeRuneInString (String c t)) as [r w]. simpl. eauto.
Qed.

Lemma leadingSpace_app (a b : string) :
  a <> "" -> ~ hasSpace a -> leadingSpace (a +:+ String " " b) = false.
Proof.
  intros Ha Hs. unfold leadingSpace. rewrite runes_app_space.
  destruct a as [|c t]; [done|].
  destruct (runes_cons c t) as (r & rs & E). rewrite E. simpl.
  apply not_true_is_false. intros Hr. apply Hs. exists r. split; [|done].
  rewrite E. left.
Qed.

Lemma trailingSpace_no_space (a : string) :
  ~ hasSpace a -> trailingSpace a = false.
Proof.
  intros Hs. unfold trailingSpace.
  destruct (last (runes a)) as [r|] eqn:E; [|done].
  apply not_true_is_false. intros Hr. apply Hs. exists r. split; [|done].
  apply last_Some in E as [l ->]. apply elem_of_app. right. left.
Qed.

Lemma trailingSpace_app (a b : string) :
  b <> "" -> trailingSpace (a +:+ String " " b) = trailingSpace b.
Proof.
  intros Hb. unfold trailingSpace. rewrite runes_app_space.
  destruct b as [|c t]; [done|].
  destruct (runes_cons c t) as (r & rs & E). rewrite E.
  rewrite (last_app_cons (runes a) (r :: rs) 32).
  by rewrite last_cons_cons.
Qed.

(** ** module.go: validation and tag values *)

Lemma name_check (s : string) :
  bool_decide (s = "") || strings.ContainsFunc s unicode.IsSpace = false
  <-> s <> "" /\ ~ hasSpace s.
Proof.
  rewrite orb_false_iff, bool_decide_eq_false, ContainsFunc_IsSpace_false.
  done.
Qed.

Lemma name_check_true (s : string) :
  bool_decide (s = "") || strings.ContainsFunc s unicode.IsSpace = true
  <-> s = "" \/ hasSpace s.
Proof.
  rewrite orb_true_iff, bool_decide_eq_true, ContainsFunc_IsSpace. done.
Qed.

Lemma ValidateGoImport_None (d : Module_) :
  ValidateGoImport d = None <->
  (ImportPath d <> "" /\ ~ hasSpace (ImportPath d))
  /\ VCSType d ∈ vcsKinds
  /\ (RepoURL d <> "" /\ ~ hasSpace (RepoURL d)).
Proof.
  unfold ValidateGoImport.
  rewrite <- !name_check, <- supportedVCS_lookup.
  destruct (bool_decide (ImportPath d = "") || _); [intuition congruence|].
  destruct (supportedVCS !! VCSType d) as [u|].
  - destruct (bool_decide (RepoURL d = "") || _).
    + intuition congruence.
    + intuition eauto.
  - split; [done|]. intros (_ & [? [=]] & _).
Qed.

(** C4. ValidateGoImport returns nil exactly when the import path is
    non-empty and free of whitespace, the VCS type is one of bzr, fossil,
    git, hg, svn, and the repository URL is non-empty and free of
    whitespace.  The home page and the link templates do not affect the
    result.  When it fails, the error is the sentinel of the first failing
    constraint, in the order name, VCS, repository URL, and the three
    sentinels are distinct. *)
Theorem ValidateGoImport_spec (d : Module_) :
  (ValidateGoImport d = None <->
     (ImportPath d <> "" /\ ~ hasSpace (ImportPath d))
     /\ VCSType d ∈ vcsKinds
     /\ (RepoURL d <> "" /\ ~ hasSpace (RepoURL d)))
  /\ (forall h dt ft,
        ValidateGoImport
          {| ImportPath := ImportPath d; VCSType := VCSType d;
             RepoURL := RepoURL d; HomePage := h;
             DirectoryLinkTemplate := dt; FileLinkTemplate := ft |}
        = ValidateGoImport d)
  /\ (ImportPath d = "" \/ hasSpace (ImportPath d) ->
      ValidateGoImport d = Some errInvalidModuleName)
  /\ (ImportPath d <> "" /\ ~ hasSpace (ImportPath d) ->
      VCSType d ∉ vcsKinds ->
      ValidateGoImport d = Some errUnsupportedVCS)
  /\ (ImportPath d <> "" /\ ~ hasSpace (ImportPath d) ->
      VCSType d ∈ vcsKinds ->
      RepoURL d = "" \/ hasSpace (RepoURL d) ->
      ValidateGoImport d = Some errInvalidRepoURL)
  /\ errInvalidModuleName <> errUnsupportedVCS
  /\ errInvalidModuleName <> errInvalidRepoURL
  /\ errUnsupportedVCS <> errInvalidRepoURL.
Proof.
  split; [apply ValidateGoImport_None|].
  split; [done|].
  unfold ValidateGoImport.
  repeat split; try done.
  - intros H%name_check_true. by rewrite H.
  - intros H%name_check Hv. rewrite H.
    rewrite <- supportedVCS_lookup in Hv.
    destruct (supportedVCS !! VCSType d); [|done].
    exfalso; eauto.
  - intros H%name_check Hv%supportedVCS_lookup Hr%name_check_true.
    rewrite H, Hr. by destruct Hv as [u ->].
Qed.

Lemma space_app (t : string) : " " +:+ t = String " " t.
Proof. reflexivity. Qed.

Lemma GoImport_valid (d : Module_) :
  ValidateGoImport d = None ->
  GoImport d = ImportPath d +:+ " " +:+ VCSType d +:+ " " +:+ RepoURL d.
Proof. unfold GoImport. by intros ->. Qed.

(** C5. For a descriptor that passes ValidateGoImport, GoImport is the
    import path, the VCS type and the repository URL joined by one space
    each; it neither starts nor ends with whitespace, and splitting it on
    the space gives back exactly the three fields. *)
Theorem GoImport_roundtrip (d : Module_) :
  ValidateGoImport d = None ->
  GoImport d = ImportPath d +:+ " " +:+ VCSType d +:+ " " +:+ RepoURL d
  /\ strings.SplitByte (GoImport d) " " = [ImportPath d; VCSType d; RepoURL d]
  /\ leadingSpace (GoImport d) = false
  /\ trailingSpace (GoImport d) = false
  /\ runes (GoImport d)
     = runes (ImportPath d) ++ 32 :: runes (VCSType d) ++ 32 :: runes (RepoURL d).
Proof.
  intros Hv. rewrite (GoImport_valid d Hv).
  apply ValidateGoImport_None in Hv as ((Hi & Hin) & Hvcs & (Hr & Hrn)).
  split; [done|].
  pose proof (vcsKinds_no_space _ Hvcs) as Hvn.
  rewrite !space_app.
  split; [|split; [|split]].
  - rewrite SplitByte_app by by apply no_space_byte.
    rewrite SplitByte_app by by apply no_space_byte.
    rewrite SplitByte_no_sep by by apply no_space_byte.
    done.
  - by apply leadingSpace_app.
  - rewrite trailingSpace_app.
    + rewrite trailingSpace_app by done. by apply trailingSpace_no_space.
    + by destruct (VCSType d).
  - by rewrite !runes_app_space.
Qed.

Lemma GoImport_roundtrip_witness :
  ValidateGoImport exampleModule = None
  /\ strings.SplitByte (GoImport exampleModule) " "
     = ["example.org/mod"; "git"; "https://example.org/mod"].
Proof.
  split; [reflexivity|].
  apply (GoImport_roundtrip exampleModule). reflexivity.
Defined.

Lemma ValidateGoSource_None (d : Module_) :
  ValidateGoSource d = None <->
  (ImportPath d <> "" /\ ~ hasSpace (ImportPath d))
  /\ ~ hasSpace (HomePage d)
  /\ (DirectoryLinkTemplate d <> "" /\ ~ hasSpace (DirectoryLinkTemplate d))
  /\ (FileLinkTemplate d <> "" /\ ~ hasSpace (FileLinkTemplate d)).
Proof.
  unfold ValidateGoSource.
  rewrite <- !name_check, <- ContainsFunc_IsSpace_false.
  destruct (bool_decide (ImportPath d = "") || _); [intuition congruence|].
  destruct (decide (HomePage d = "")) as [E|E].
  - rewrite E. simpl.
    destruct (bool_decide (DirectoryLinkTemplate d = "") || _);
      [intuition congruence|].
    destruct (bool_decide (FileLinkTemplate d = "") || _);
      intuition congruence.
  - rewrite (bool_decide_eq_false_2 _ E). simpl.
    destruct (strings.ContainsFunc (HomePage d) unicode.IsSpace);
      [intuition congruence|].
    destruct (bool_decide (DirectoryLinkTemplate d = "") || _);
      [intuition congruence|].
    destruct (bool_decide (FileLinkTemplate d = "") || _);
      intuition congruence.
Qed.

Lemma homePageOrUnderscore_no_space (d : Module_) :
  ~ hasSpace (HomePage d) ->
  homePageOrUnderscore d <> "" /\ ~ hasSpace (homePageOrUnderscore d).
Proof.
  unfold homePageOrUnderscore. intros H.
  destruct (decide (HomePage d = "")); [|done].
  split; [done|]. by apply ContainsFunc_IsSpace_false.
Qed.

Lemma GoSource_valid (d : Module_) :
  ValidateGoSource d = None ->
  GoSource d = ImportPath d +:+ " " +:+ homePageOrUnderscore d +:+ " "
               +:+ DirectoryLinkTemplate d +:+ " " +:+ FileLinkTemplate d.
Proof.
  intros Hv.
  pose proof Hv as ((Hi & Hin) & Hh & (Hd & Hdn) & (Hf & Hfn))%ValidateGoSource_None.
  unfold GoSource, homePageOrUnderscore.
  rewrite (proj2 (name_check _)) by done.
  destruct (decide (HomePage d = "")) as [E|E].
  - rewrite (bool_decide_eq_true_2 _ E). simpl.
    replace (strings.ContainsFunc "_" unicode.IsSpace) with false by done.
    rewrite !(proj2 (name_check _)) by done. done.
  - rewrite (bool_decide_eq_false_2 _ E).
    rewrite (proj2 (ContainsFunc_IsSpace_false _)) by done.
    rewrite !(proj2 (name_check _)) by done. done.
Qed.

(** C6. For a descriptor that passes ValidateGoSource, GoSource is the
    import path, the home page (the underscore when the home page is
    empty), the directory link template and the file link template, joined
    by single spaces; with an empty home page the second space-delimited
    field of the value is exactly the underscore. *)
Theorem GoSource_fields (d : Module_) :
  ValidateGoSource d = None ->
  GoSource d = ImportPath d +:+ " " +:+ homePageOrUnderscore d +:+ " "
               +:+ DirectoryLinkTemplate d +:+ " " +:+ FileLinkTemplate d
  /\ strings.SplitByte (GoSource d) " "
     = [ImportPath d; homePageOrUnderscore d;
        DirectoryLinkTemplate d; FileLinkTemplate d]
  /\ (HomePage d = "" -> strings.SplitByte (GoSource d) " " !! 1%nat = Some "_")
  /\ (HomePage d <> "" -> homePageOrUnderscore d = HomePage d).
Proof.
  intros Hv. rewrite (GoSource_valid d Hv).
  apply ValidateGoSource_None in Hv as ((Hi & Hin) & Hh & (Hd & Hdn) & (Hf & Hfn)).
  apply homePageOrUnderscore_no_space in Hh as [_ Hhn].
  split; [done|].
  assert (strings.SplitByte
            (ImportPath d +:+ " " +:+ homePageOrUnderscore d +:+ " "
             +:+ DirectoryLinkTemplate d +:+ " " +:+ FileLinkTemplate d) " "
          = [ImportPath d; homePageOrUnderscore d;
             DirectoryLinkTemplate d; FileLinkTemplate d]) as ->.
  { rewrite !space_app.
    rewrite !SplitByte_app by by apply no_space_byte.
    rewrite SplitByte_no_sep by by apply no_space_byte.
    done. }
  split; [done|]. unfold homePageOrUnderscore.
  split; intros E; simpl; by destruct (decide (HomePage d = "")).
Qed.

(* A forge descriptor whose home page is removed has the underscore as
   its second field. *)
Lemma GoSource_fields_witness :
  let d := withHomePage (GitForgeModule "example.org/mod" "https://example.org/mod.git" "main") "" in
  ValidateGoSource d = None
  /\ strings.SplitByte (GoSource d) " " !! 1%nat = Some "_".
Proof.
  split; [reflexivity|].
  apply (GoSource_fields
           (withHomePage (GitForgeModule "example.org/mod" "https://example.org/mod.git" "main") ""));
    reflexivity.
Defined.

Lemma GoImport_empty_iff (d : Module_) :
  GoImport d = "" <-> ValidateGoImport d <> None.
Proof.
  destruct (ValidateGoImport d) as [e|] eqn:Hv.
  - unfold GoImport. rewrite Hv. done.
  - rewrite (GoImport_valid d Hv).
    apply ValidateGoImport_None in Hv as ((Hi & _) & _).
    split; [|done]. destruct (ImportPath d); done.
Qed.

Lemma GoSource_empty_iff (d : Module_) :
  GoSource d = "" <-> ValidateGoSource d <> None.
Proof.
  destruct (ValidateGoSource d) as [e|] eqn:Hv.
  - split; [done|]. intros _.
    unfold ValidateGoSource in Hv. unfold GoSource.
    destruct (bool_decide (ImportPath d = "") || _); [done|].
    destruct (decide (HomePage d = "")) as [E|E].
    + rewrite (bool_decide_eq_true_2 _ E) in *. simpl in *.
      replace (strings.ContainsFunc "_" unicode.IsSpace) with false by done.
      destruct (bool_decide (DirectoryLinkTemplate d = "") || _); [done|].
      destruct (bool_decide (FileLinkTemplate d = "") || _); done.
    + rewrite (bool_decide_eq_false_2 _ E) in *. simpl in *.
      destruct (strings.ContainsFunc (HomePage d) unicode.IsSpace); [done|].
      destruct (bool_decide (DirectoryLinkTemplate d = "") || _); [done|].
      destruct (bool_decide (FileLinkTemplate d = "") || _); done.
  - rewrite (GoSource_valid d Hv).
    apply ValidateGoSource_None in Hv as ((Hi & _) & _).
    split; [|done]. destruct (ImportPath d); done.
Qed.

(** C7. GoImport returns the empty string exactly when ValidateGoImport
    returns an error, and GoSource returns the empty string exactly when
    ValidateGoSource returns an error. *)
Theorem empty_value_iff_invalid (d : Module_) :
  (GoImport d = "" <-> ValidateGoImport d <> None)
  /\ (GoSource d = "" <-> ValidateGoSource d <> None).
Proof. split; [apply GoImport_empty_iff | apply GoSource_empty_iff]. Qed.

(** ** forge.go *)

Lemma takeBytes_dropBytes (n : nat) (s : string) :
  strings.takeBytes n s +:+ strings.dropBytes n s = s.
Proof.
  revert s. induction n as [|n IH]; intros [|c t]; simpl; try done.
  by rewrite append_cons, IH.
Qed.

Lemma dropBytes_app (p s : string) :
  strings.dropBytes (String.length p) (p +:+ s) = s.
Proof. induction p as [|c p IH]; [done|]. by rewrite append_cons. Qed.

Lemma takeBytes_app (p s : string) :
  strings.takeBytes (String.length p) (p +:+ s) = p.
Proof.
  induction p as [|c p IH]; [by destruct s|].
  rewrite append_cons. simpl. by rewrite IH.
Qed.

Lemma HasSuffix_true (s suffix : string) :
  strings.HasSuffix s suffix = true <-> exists p, s = p +:+ suffix.
Proof.
  unfold strings.HasSuffix.
  rewrite andb_true_iff, Nat.leb_le, bool_decide_eq_true. split.
  - intros [Hl E].
    exists (strings.takeBytes (String.length s - String.length suffix) s).
    symmetry. etrans; [|apply (takeBytes_dropBytes (String.length s - String.length suffix))].
    by rewrite E.
  - intros [p ->]. rewrite length_append. split; [lia|].
    replace (String.length p + String.length suffix - String.length suffix)%nat
      with (String.length p) by lia.
    apply dropBytes_app.
Qed.

Lemma HasPrefix_true (s prefix : string) :
  strings.HasPrefix s prefix = true <-> exists t, s = prefix +:+ t.
Proof.
  unfold strings.HasPrefix.
  rewrite andb_true_iff, Nat.leb_le, bool_decide_eq_true. split.
  - intros [Hl E]. exists (strings.dropBytes (String.length prefix) s).
    symmetry. etrans; [|apply (takeBytes_dropBytes (String.length prefix))].
    by rewrite E.
  - intros [t ->]. rewrite length_append. split; [lia|].
    apply takeBytes_app.
Qed.

(** TrimSuffix removes the suffix once when the string ends with it, and
    returns the string unchanged when it does not. *)
Lemma TrimSuffix_spec (s suffix : string) :
  trimmedSuffix s suffix (strings.TrimSuffix s suffix).
Proof.
  unfold trimmedSuffix, strings.TrimSuffix.
  destruct (strings.HasSuffix s suffix) eqn:E.
  - left. apply HasSuffix_true in E as [p ->].
    rewrite length_append.
    replace (String.length p + String.length suffix - String.length suffix)%nat
      with (String.length p) by lia.
    by rewrite takeBytes_app.
  - right. split; [|done]. intros p ->.
    assert (strings.HasSuffix (p +:+ suffix) suffix = true)
      by (apply HasSuffix_true; eauto).
    congruence.
Qed.

(** C9. GitForgeModule returns the descriptor of the given import path
    with VCS type git, whose repository URL and home page are both the
    given URL with a trailing .git and then a trailing slash trimmed, and
    whose directory and file link templates are that URL followed by
    /tree/, the ref and {/dir}, and by /blob/, the ref and
    {/dir}/{file}#L{line}. *)
Theorem GitForgeModule_fields (importPath repoURL ref : string) :
  exists u url : string,
    trimmedSuffix repoURL ".git" u
    /\ trimmedSuffix u "/" url
    /\ GitForgeModule importPath repoURL ref
       = {| ImportPath := importPath;
            VCSType := "git";
            RepoURL := url;
            HomePage := url;
            DirectoryLinkTemplate := url +:+ "/tree/" +:+ ref +:+ "{/dir}";
            FileLinkTemplate :=
              url +:+ "/blob/" +:+ ref +:+ "{/dir}/{file}#L{line}" |}.
Proof.
  exists (strings.TrimSuffix repoURL ".git"),
         (strings.TrimSuffix (strings.TrimSuffix repoURL ".git") "/").
  split; [apply TrimSuffix_spec|]. split; [apply TrimSuffix_spec|]. done.
Qed.

(** ** site.go: links *)

Lemma HomePageURL_nonempty (d : Module_) : HomePageURL d <> "".
Proof.
  unfold HomePageURL.
  destruct (decide (HomePage d = "")) as [E|E].
  - by rewrite (bool_decide_eq_true_2 _ E).
  - rewrite (bool_decide_eq_false_2 _ E).
    by destruct (bool_decide (HomePage d = "_")).
Qed.

(** C10. SourceCodeURL returns the empty string exactly when the directory
    link template is empty; otherwise it returns HomePageURL, which is the
    home page when that is neither empty nor the underscore, and the
    pkg.go.dev URL of the import path otherwise.  The link templates are
    not expanded: beyond the emptiness of the directory link template they
    do not influence the result. *)
Theorem SourceCodeURL_spec (d : Module_) :
  (SourceCodeURL d = "" <-> DirectoryLinkTemplate d = "")
  /\ (DirectoryLinkTemplate d <> "" -> SourceCodeURL d = HomePageURL d)
  /\ (HomePage d <> "" -> HomePage d <> "_" -> HomePageURL d = HomePage d)
  /\ (HomePage d = "" \/ HomePage d = "_" ->
      HomePageURL d = "https://pkg.go.dev/" +:+ ImportPath d)
  /\ (forall dt ft, dt <> "" ->
      SourceCodeURL
        {| ImportPath := ImportPath d; VCSType := VCSType d;
           RepoURL := RepoURL d; HomePage := HomePage d;
           DirectoryLinkTemplate := dt; FileLinkTemplate := ft |}
      = HomePageURL d).
Proof.
  assert (Hne : forall m, DirectoryLinkTemplate m <> "" ->
                          SourceCodeURL m = HomePageURL m).
  { intros m E. unfold SourceCodeURL, HomePageURL.
    by rewrite (bool_decide_eq_false_2 _ E). }
  split; [|split; [|split; [|split]]].
  - split.
    + intros E. destruct (decide (DirectoryLinkTemplate d = "")) as [|N]; [done|].
      rewrite (Hne d N) in E. by apply HomePageURL_nonempty in E.
    + intros E. unfold SourceCodeURL. by rewrite (bool_decide_eq_true_2 _ E).
  - apply Hne.
  - intros E1 E2. unfold HomePageURL.
    by rewrite (bool_decide_eq_false_2 _ E1), (bool_decide_eq_false_2 _ E2).
  - intros [E|E]; unfold HomePageURL; rewrite E; done.
  - intros dt ft E. by rewrite Hne.
Qed.

(** ** site.go: rendering one page *)

Section Site.
Context `{Templates}.

Lemma RenderSite_invalid (d : Module_) (footer : string) (w : World) (e : error) :
  ValidateGoImport d = Some e ->
  RenderSite d footer w = (Some (errNoValidGoImport e), w).
Proof. unfold RenderSite. by intros ->. Qed.

Lemma RenderSite_valid (d : Module_) (footer : string) (w : World) :
  ValidateGoImport d = None ->
  RenderSite d footer w =
  (errImportingTemplate <$>
     (siteModuleTemplate {| ctxModule := d; ctxFooter := footer |}).2,
   {| builder := builder w
        +:+ (siteModuleTemplate {| ctxModule := d; ctxFooter := footer |}).1;
      trace := trace w ++ [moduleCall footer d] |}).
Proof.
  unfold RenderSite. intros ->.
  unfold bind, executeSiteModule, ret, moduleCall.
  destruct (siteModuleTemplate _) as [out [e|]]; done.
Qed.

(** C8. RenderSite returns an error without executing the template, and
    without writing anything, whenever ValidateGoImport fails.  When
    ValidateGoImport passes, the template is executed once with the
    descriptor and the footer, whether or not the descriptor can produce a
    go-source value, and the only error is one of the template; for a
    descriptor that fails ValidateGoSource the go-source tag is the empty
    string. *)
Theorem RenderSite_import_mandatory (d : Module_) (footer : string) (w : World) :
  (forall e, ValidateGoImport d = Some e ->
     RenderSite d footer w = (Some (errNoValidGoImport e), w))
  /\ (ValidateGoImport d = None ->
      RenderSite d footer w =
      (errImportingTemplate <$>
         (siteModuleTemplate {| ctxModule := d; ctxFooter := footer |}).2,
       {| builder := builder w
            +:+ (siteModuleTemplate {| ctxModule := d; ctxFooter := footer |}).1;
          trace := trace w ++ [ExecSiteModule {| ctxModule := d; ctxFooter := footer |}] |}))
  /\ (ValidateGoSource d <> None -> GoSourceTag d = "").
Proof.
  split; [intros e; apply RenderSite_invalid|].
  split; [apply RenderSite_valid|].
  intros Hs. unfold GoSourceTag.
  apply GoSource_empty_iff in Hs. rewrite Hs. done.
Qed.

(** ** site.go: the loop of BuildSite *)

Lemma renderError_None (footer : string) (m : Module_) :
  renderError footer m = None <->
  ValidateGoImport m = None
  /\ (siteModuleTemplate {| ctxModule := m; ctxFooter := footer |}).2 = None.
Proof.
  unfold renderError.
  destruct (ValidateGoImport m) as [e|] eqn:Hv.
  - rewrite (RenderSite_invalid _ _ _ _ Hv). simpl. intuition congruence.
  - rewrite (RenderSite_valid _ _ _ Hv). simpl.
    destruct (siteModuleTemplate _).2; simpl; intuition congruence.
Qed.

(* Rendering into a builder that was just reset. *)
Lemma RenderSite_reset (footer : string) (m : Module_) (w : World) :
  exists w',
    RenderSite m footer {| builder := ""; trace := trace w |}
    = (renderError footer m, w')
    /\ builder w' = renderedPage footer m
    /\ (renderError footer m = None ->
        trace w' = trace w ++ [moduleCall footer m]).
Proof.
  unfold renderError, renderedPage.
  destruct (ValidateGoImport m) as [e|] eqn:Hv.
  - rewrite !(RenderSite_invalid _ _ _ _ Hv). simpl. eexists. split; [done|].
    split; [done|]. done.
  - rewrite !(RenderSite_valid _ _ _ Hv). simpl. eexists. split; [done|].
    split; [done|]. done.
Qed.

Lemma buildModules_cons (url footer : string) (m : Module_)
    (rest : list Module_) (files urls : gmap string string) (w : World) :
  buildModules url footer (m :: rest) files urls w =
  if negb (getModuleHTMLPath m url).2
  then (inl (errModulePath (ImportPath m)), w)
  else match files !! pathOf url m with
       | Some _ => (inl (errDuplicateDestination (pathOf url m)), w)
       | None =>
         match RenderSite m footer {| builder := ""; trace := trace w |} with
         | (Some e, w') => (inl (errRenderHTML (ImportPath m) e), w')
         | (None, w') =>
           buildModules url footer rest
             (<[pathOf url m := builder w']> files)
             (<[ImportPath m := strings.TrimSuffix (pathOf url m) "index.html"]> urls)
             w'
         end
       end.
Proof.
  unfold pathOf. simpl.
  destruct (getModuleHTMLPath m url) as [dest ok]. simpl.
  destruct ok; simpl; [|done].
  destruct (files !! dest); [done|].
  unfold bind, builderReset, builderString, ret. simpl.
  destruct (RenderSite m footer _) as [[e|] w']; done.
Qed.

(** The loop over modules that are all processed without failure, none of
    whose paths is in [files] yet: it returns the maps extended by the
    pages and the URLs of the modules, after executing the module template
    once for each of them, in order. *)
Lemma buildModules_ok (url footer : string) (modules : list Module_)
    (files urls : gmap string string) (w : World) :
  processed url footer modules ->
  (forall m, m ∈ modules -> files !! pathOf url m = None) ->
  exists w',
    buildModules url footer modules files urls w
    = (inr (sitePages url footer modules files, siteURLs url modules urls), w')
    /\ trace w' = trace w ++ (moduleCall footer <$> modules).
Proof.
  revert files urls w.
  induction modules as [|m rest IH]; intros files urls w (Hp & Hn & Hr) Hf.
  - exists w. split; [done|]. simpl. by rewrite app_nil_r.
  - rewrite buildModules_cons.
    apply Forall_cons in Hp as [Hpm Hp]. apply Forall_cons in Hr as [Hrm Hr].
    rewrite fmap_cons in Hn. apply NoDup_cons in Hn as [Hnm Hn].
    unfold placeable in Hpm. rewrite Hpm. simpl.
    rewrite (Hf m) by left.
    destruct (RenderSite_reset footer m w) as (w1 & -> & Hb & Ht).
    rewrite Hrm, Hb.
    destruct (IH (<[pathOf url m := renderedPage footer m]> files)
                 (<[ImportPath m := strings.TrimSuffix (pathOf url m) "index.html"]> urls)
                 w1) as (w' & -> & Ht').
    { done. }
    { intros m' Hm'. rewrite lookup_insert_ne.
      - apply Hf. by right.
      - intros E. apply Hnm. rewrite E. apply list_elem_of_fmap. eauto. }
    exists w'. split; [done|].
    rewrite Ht', Ht by done. by rewrite <- app_assoc.
Qed.

Lemma buildModules_app (url footer : string) (pre rest : list Module_)
    (files urls : gmap string string) (w : World) :
  buildModules url footer (pre ++ rest) files urls w =
  match buildModules url footer pre files urls w with
  | (inl e, w') => (inl e, w')
  | (inr (f, u), w') => buildModules url footer rest f u w'
  end.
Proof.
  revert files urls w. induction pre as [|m pre IH]; intros files urls w.
  - done.
  - rewrite <- app_comm_cons, !buildModules_cons.
    destruct (negb _); [done|].
    destruct (files !! pathOf url m); [done|].
    destruct (RenderSite m footer _) as [[e|] w']; [done|].
    apply IH.
Qed.

Lemma sitePages_lookup (url footer : string) (modules : list Module_)
    (files : gmap string string) (p : string) :
  is_Some (sitePages url footer modules files !! p) <->
  p ∈ (pathOf url <$> modules) \/ is_Some (files !! p).
Proof.
  revert files. induction modules as [|m rest IH]; intros files; simpl.
  - rewrite elem_of_nil. tauto.
  - unfold sitePages in *. rewrite IH, lookup_insert_is_Some', elem_of_cons.
    intuition congruence.
Qed.

Lemma sitePages_lookup_None (url footer : string) (modules : list Module_)
    (files : gmap string string) (p : string) :
  sitePages url footer modules files !! p = None <->
  (p ∉ (pathOf url <$> modules)) /\ files !! p = None.
Proof.
  rewrite !eq_None_not_Some, sitePages_lookup. tauto.
Qed.

Lemma sitePages_size (url footer : string) (modules : list Module_)
    (files : gmap string string) :
  NoDup (pathOf url <$> modules) ->
  (forall m, m ∈ modules -> files !! pathOf url m = None) ->
  size (sitePages url footer modules files) = (size files + length modules)%nat.
Proof.
  revert files. induction modules as [|m rest IH]; intros files Hn Hf; simpl.
  - lia.
  - rewrite fmap_cons in Hn. apply NoDup_cons in Hn as [Hnm Hn].
    unfold sitePages in *. rewrite IH; [|done|].
    + rewrite map_size_insert_None by (apply Hf; left). lia.
    + intros m' Hm'. rewrite lookup_insert_ne.
      * apply Hf. by right.
      * intros E. apply Hnm. rewrite E. apply list_elem_of_fmap. eauto.
Qed.

(** Every module of a site has its page at its path. *)
Lemma sitePages_page (url footer : string) (modules : list Module_)
    (files : gmap string string) (m : Module_) :
  NoDup (pathOf url <$> modules) ->
  m ∈ modules ->
  sitePages url footer modules files !! pathOf url m
  = Some (renderedPage footer m).
Proof.
  revert files. induction modules as [|m' rest IH]; intros files Hn Hm.
  - by apply elem_of_nil in Hm.
  - rewrite fmap_cons in Hn. apply NoDup_cons in Hn as [Hnm Hn].
    apply elem_of_cons in Hm as [->|Hm].
    + assert (Hl : forall f, f !! pathOf url m' = Some (renderedPage footer m') ->
        sitePages url footer rest f !! pathOf url m' = Some (renderedPage footer m')).
      { clear IH Hn. induction rest as [|x rest IH]; intros f Hf; [done|].
        simpl. apply IH.
        - intros Hin. apply Hnm. rewrite fmap_cons. by right.
        - rewrite lookup_insert_ne; [done|].
          intros E. apply Hnm. rewrite fmap_cons, E. left. }
      apply Hl. apply lookup_insert_eq.
    + by apply IH.
Qed.

Lemma processed_snoc (url footer : string) (pre : list Module_) (m : Module_) :
  processed url footer (pre ++ [m]) <->
  processed url footer pre /\ moduleFailure url footer pre m = None.
Proof.
  unfold processed, moduleFailure, placeable, pathOf.
  rewrite !Forall_app, !Forall_singleton, fmap_app, NoDup_app. simpl.
  destruct (getModuleHTMLPath m url) as [dest ok]. simpl.
  split.
  - intros ((Hp & ->) & (Hn & Hd & _) & (Hr & Hrm)).
    split; [done|]. rewrite decide_False; [by rewrite Hrm|].
    intros Hin. apply (Hd _ Hin). left.
  - intros ((Hp & Hn & Hr) & Hm). destruct ok; [|done].
    destruct (decide _) as [|Hnin]; [done|].
    destruct (renderError footer m); [done|].
    repeat split; try done.
    + intros x Hx [->|[]%elem_of_nil]%elem_of_cons. done.
    + apply NoDup_singleton.
Qed.

(** Every list of modules is processed as a whole, or has a first module
    at which the loop fails. *)
Lemma processed_or_failure (url footer : string) (modules : list Module_) :
  processed url footer modules
  \/ exists pre m post e,
       modules = pre ++ m :: post
       /\ processed url footer pre
       /\ moduleFailure url footer pre m = Some e.
Proof.
  induction modules as [|m l IH] using rev_ind.
  - left. repeat split; [apply Forall_nil_2|apply NoDup_nil_2|apply Forall_nil_2].
  - destruct IH as [Hl|(pre & x & post & e & -> & Hp & Hx)].
    + destruct (moduleFailure url footer l m) as [e|] eqn:E.
      * right. by exists l, m, [], e.
      * left. by apply processed_snoc.
    + right. exists pre, x, (post ++ [m]), e.
      by rewrite <- app_assoc.
Qed.

(** The loop stops at the first module that cannot be processed, with the
    error of that module. *)
Lemma buildModules_first_failure (url footer : string)
    (pre post : list Module_) (m : Module_) (e : error)
    (urls : gmap string string) (w : World) :
  processed url footer pre ->
  moduleFailure url footer pre m = Some e ->
  exists w',
    buildModules url footer (pre ++ m :: post) ∅ urls w = (inl e, w')
    /\ forall ctx, ExecSiteIndex ctx ∈ trace w' -> ExecSiteIndex ctx ∈ trace w.
Proof.
  intros Hpre Hm. rewrite buildModules_app.
  destruct (buildModules_ok url footer pre ∅ urls w Hpre) as (w1 & -> & Ht).
  { intros; apply lookup_empty. }
  assert (Hw1 : forall ctx, ExecSiteIndex ctx ∈ trace w1 -> ExecSiteIndex ctx ∈ trace w).
  { intros ctx. rewrite Ht, elem_of_app.
    intros [?|(x & [=] & _)%list_elem_of_fmap]. done. }
  rewrite buildModules_cons. unfold moduleFailure in Hm. unfold pathOf at 1 2 3.
  destruct (getModuleHTMLPath m url) as [dest ok] eqn:Hg. simpl.
  destruct ok; simpl; [|injection Hm as <-; eauto].
  destruct (decide (dest ∈ pathOf url <$> pre)) as [Hin|Hin].
  - injection Hm as <-.
    destruct (sitePages url footer pre ∅ !! dest) eqn:E; [eauto|].
    apply sitePages_lookup_None in E as [E _]. done.
  - rewrite (proj2 (sitePages_lookup_None url footer pre ∅ dest)); cycle 1.
    { split; [done|apply lookup_empty]. }
    unfold renderError in Hm.
    destruct (ValidateGoImport m) as [ev|] eqn:Hv.
    + rewrite (RenderSite_invalid _ _ _ _ Hv).
      rewrite (RenderSite_invalid _ _ _ _ Hv) in Hm. simpl in Hm.
      injection Hm as <-. eexists. split; [done|]. simpl. done.
    + rewrite (RenderSite_valid _ _ _ Hv).
      rewrite (RenderSite_valid _ _ _ Hv) in Hm. simpl in *.
      destruct (siteModuleTemplate _).2 as [et|]; [|done].
      simpl in *. injection Hm as <-. eexists. split; [done|]. simpl.
      intros ctx. rewrite elem_of_app.
      intros [?|[=]%list_elem_of_singleton]. auto.
Qed.

(** ** site.go: BuildSite *)

Lemma BuildSite_failure (url indexContent footer : string)
    (pre post : list Module_) (m : Module_) (e : error) (w : World) :
  processed url footer pre ->
  moduleFailure url footer pre m = Some e ->
  exists w',
    BuildSite url indexContent footer (pre ++ m :: post) w
    = ((None, Some e), w')
    /\ forall ctx, ExecSiteIndex ctx ∈ trace w' -> ExecSiteIndex ctx ∈ trace w.
Proof.
  intros Hpre Hm. unfold BuildSite, bind, builderReset.
  destruct (buildModules_first_failure url footer pre post m e ∅
              {| builder := ""; trace := trace w |} Hpre Hm) as (w' & -> & Ht).
  by exists w'.
Qed.

Lemma BuildSite_processed (url indexContent footer : string)
    (modules : list Module_) (w : World) :
  processed url footer modules ->
  exists w',
    BuildSite url indexContent footer modules w
    = (if decide ("index.html" ∈ (pathOf url <$> modules))
       then (Some (sitePages url footer modules ∅), None)
       else match indexError url indexContent footer modules with
            | Some e => (None, Some (errRenderIndex (errBuildIndex e)))
            | None =>
              (Some (<["index.html" := indexPage url indexContent footer modules]>
                       (sitePages url footer modules ∅)), None)
            end, w')
    /\ trace w' = trace w ++ (moduleCall footer <$> modules)
         ++ (if decide ("index.html" ∈ (pathOf url <$> modules)) then []
             else [ExecSiteIndex (indexContext url indexContent footer modules)]).
Proof.
  intros Hm. unfold BuildSite, bind, builderReset.
  destruct (buildModules_ok url footer modules ∅ ∅
              {| builder := ""; trace := trace w |} Hm) as (w1 & -> & Ht).
  { intros; apply lookup_empty. }
  simpl in Ht.
  destruct (decide ("index.html" ∈ (pathOf url <$> modules))) as [Hin|Hin].
  - destruct (sitePages url footer modules ∅ !! "index.html") eqn:E.
    + exists w1. split; [done|]. by rewrite app_nil_r.
    + apply sitePages_lookup_None in E as [E _]. done.
  - rewrite (proj2 (sitePages_lookup_None url footer modules ∅ "index.html"));
      cycle 1.
    { split; [done|apply lookup_empty]. }
    unfold buildIndex, bind, executeSiteIndex, builderString, ret.
    unfold indexError, indexPage, indexContext. simpl.
    destruct (siteIndexTemplate _) as [out [e|]]; simpl;
      eexists; (split; [done|]); simpl; by rewrite Ht, app_assoc.
Qed.

Lemma indexSynthesized_processed (url indexContent footer : string)
    (modules : list Module_) (w' : World) :
  trace w' = [] ++ (moduleCall footer <$> modules)
    ++ (if decide ("index.html" ∈ (pathOf url <$> modules)) then []
        else [ExecSiteIndex (indexContext url indexContent footer modules)]) ->
  indexSynthesized w' <-> "index.html" ∉ (pathOf url <$> modules).
Proof.
  intros Ht. unfold indexSynthesized. rewrite Ht. simpl. split.
  - intros (ctx & [(x & [=] & _)%list_elem_of_fmap|Hin]%elem_of_app).
    destruct (decide _); [by apply elem_of_nil in Hin|done].
  - intros Hn. rewrite decide_False by done.
    eexists. apply elem_of_app. right. left.
Qed.

Lemma placeable_prefix (url : string) (m : Module_) :
  placeable url m <-> exists t, ImportPath m = normalizedBase url +:+ t.
Proof.
  rewrite <- HasPrefix_true. unfold placeable, getModuleHTMLPath, normalizedBase.
  by destruct (strings.HasPrefix _ _).
Qed.

Lemma moduleFailure_cases (url footer : string) (pre : list Module_)
    (m : Module_) :
  (~ placeable url m ->
   moduleFailure url footer pre m = Some (errModulePath (ImportPath m)))
  /\ (placeable url m -> pathOf url m ∈ (pathOf url <$> pre) ->
      moduleFailure url footer pre m
      = Some (errDuplicateDestination (pathOf url m)))
  /\ (placeable url m -> pathOf url m ∉ (pathOf url <$> pre) ->
      moduleFailure url footer pre m
      = errRenderHTML (ImportPath m) <$> renderError footer m).
Proof.
  unfold moduleFailure, placeable, pathOf.
  destruct (getModuleHTMLPath m url) as [dest [|]]; simpl.
  - split; [done|]. split; intros _ Hin.
    + by rewrite decide_True.
    + by rewrite decide_False.
  - split; [done|]. split; done.
Qed.

Lemma moduleFailure_inv (url footer : string) (pre : list Module_)
    (m : Module_) (e : error) :
  moduleFailure url footer pre m = Some e ->
  ~ placeable url m
  \/ pathOf url m ∈ (pathOf url <$> pre)
  \/ renderError footer m <> None.
Proof.
  unfold moduleFailure, placeable, pathOf.
  destruct (getModuleHTMLPath m url) as [dest [|]]; simpl; [|by left].
  destruct (decide _); [by auto|].
  destruct (renderError footer m); [by auto|done].
Qed.

(** C2, as the code has it.  BuildSite returns either a map and no error,
    or an error and no map.  The modules are processed in input order and
    the first failure decides the error: when the modules before [m] are
    processed without failure, a module [m] whose import path does not
    start with the normalized base gives the cannot-place error naming its
    import path, a module whose output path is that of an earlier module
    gives the duplicate-destination error naming the path, and a module
    whose page does not render gives the render error naming its import
    path; a failure of the index template gives an error as well.  When
    nothing fails, the map has the page of every module at its path and
    the key index.html, and no other key.  One of these cases always
    applies. *)
Theorem BuildSite_all_or_nothing (url indexContent footer : string)
    (modules : list Module_) (w : World) :
  let r := (BuildSite url indexContent footer modules w).1 in
  ((exists files, r = (Some files, None)) \/ (exists e, r = (None, Some e)))
  /\ (forall pre m post,
        modules = pre ++ m :: post -> processed url footer pre ->
        (~ placeable url m ->
         r = (None, Some (errModulePath (ImportPath m))))
        /\ (placeable url m -> pathOf url m ∈ (pathOf url <$> pre) ->
            r = (None, Some (errDuplicateDestination (pathOf url m))))
        /\ (placeable url m -> pathOf url m ∉ (pathOf url <$> pre) ->
            forall e, renderError footer m = Some e ->
            r = (None, Some (errRenderHTML (ImportPath m) e))))
  /\ (processed url footer modules ->
      "index.html" ∉ (pathOf url <$> modules) ->
      forall e, indexError url indexContent footer modules = Some e ->
      r = (None, Some (errRenderIndex (errBuildIndex e))))
  /\ (processed url footer modules ->
      ("index.html" ∉ (pathOf url <$> modules) ->
       indexError url indexContent footer modules = None) ->
      exists files,
        r = (Some files, None)
        /\ (forall m, m ∈ modules ->
            files !! pathOf url m = Some (renderedPage footer m))
        /\ (forall p, is_Some (files !! p) <->
            p ∈ (pathOf url <$> modules) \/ p = "index.html"))
  /\ (processed url footer modules
      \/ exists pre m post,
           modules = pre ++ m :: post /\ processed url footer pre
           /\ (~ placeable url m
               \/ pathOf url m ∈ (pathOf url <$> pre)
               \/ renderError footer m <> None))
  /\ (forall m, placeable url m <->
                exists t, ImportPath m = normalizedBase url +:+ t).
Proof.
  intros r. subst r.
  split; [|split; [|split; [|split; [|split]]]].
  - destruct (processed_or_failure url footer modules)
      as [Hm|(pre & m & post & e & -> & Hp & Hf)].
    + destruct (BuildSite_processed url indexContent footer modules w Hm)
        as (w' & -> & _). simpl.
      destruct (decide _); [eauto|].
      destruct (indexError _ _ _ _); eauto.
    + destruct (BuildSite_failure url indexContent footer pre post m e w Hp Hf)
        as (w' & -> & _). eauto.
  - intros pre m post -> Hp.
    destruct (moduleFailure_cases url footer pre m) as (H1 & H2 & H3).
    split; [|split].
    + intros Hn.
      destruct (BuildSite_failure url indexContent footer pre post m _ w Hp (H1 Hn))
        as (w' & -> & _). done.
    + intros Hpl Hin.
      destruct (BuildSite_failure url indexContent footer pre post m _ w Hp
                  (H2 Hpl Hin)) as (w' & -> & _). done.
    + intros Hpl Hin e He.
      specialize (H3 Hpl Hin). rewrite He in H3.
      destruct (BuildSite_failure url indexContent footer pre post m _ w Hp H3)
        as (w' & -> & _). done.
  - intros Hm Hin e He.
    destruct (BuildSite_processed url indexContent footer modules w Hm)
      as (w' & -> & _). simpl.
    by rewrite decide_False, He.
  - intros Hm Hi.
    destruct (BuildSite_processed url indexContent footer modules w Hm)
      as (w' & -> & _). simpl.
    destruct (decide ("index.html" ∈ (pathOf url <$> modules))) as [Hin|Hin].
    + eexists. split; [done|]. split.
      * intros m Hmm. apply sitePages_page; [apply Hm|done].
      * intros p. rewrite sitePages_lookup, lookup_empty.
        split; [intros [?|[? [=]]]; by left|].
        intros [? | ->]; by left.
    + rewrite (Hi Hin). eexists. split; [done|]. split.
      * intros m Hmm. rewrite lookup_insert_ne.
        -- apply sitePages_page; [apply Hm|done].
        -- intros E. apply Hin. rewrite E. apply list_elem_of_fmap. eauto.
      * intros p. rewrite lookup_insert_is_Some', sitePages_lookup, lookup_empty.
        split.
        -- intros [<- | [? | [? [=]]]]; auto.
        -- intros [? | ->]; auto.
  - destruct (processed_or_failure url footer modules)
      as [Hm|(pre & m & post & e & -> & Hp & Hf)]; [by left|].
    right. exists pre, m, post. split; [done|]. split; [done|].
    by apply moduleFailure_inv in Hf.
  - apply placeable_prefix.
Qed.

(** BuildSite returns a map only when nothing failed. *)
Lemma BuildSite_success_inv (url indexContent footer : string)
    (modules : list Module_) (w w' : World) (files : gmap string string) :
  BuildSite url indexContent footer modules w = ((Some files, None), w') ->
  processed url footer modules
  /\ ("index.html" ∉ (pathOf url <$> modules) ->
      indexError url indexContent footer modules = None).
Proof.
  intros E.
  destruct (processed_or_failure url footer modules)
    as [Hm|(pre & m & post & e & -> & Hp & Hf)].
  - split; [done|]. intros Hin.
    destruct (BuildSite_processed url indexContent footer modules w Hm)
      as (w1 & E1 & _).
    rewrite E1, decide_False in E by done.
    by destruct (indexError url indexContent footer modules).
  - destruct (BuildSite_failure url indexContent footer pre post m e w Hp Hf)
      as (w1 & E1 & _).
    rewrite E1 in E. done.
Qed.

Lemma BuildSite_success (url indexContent footer : string)
    (modules : list Module_) :
  processed url footer modules ->
  ("index.html" ∉ (pathOf url <$> modules) ->
   indexError url indexContent footer modules = None) ->
  exists files w',
    BuildSite url indexContent footer modules freshWorld
    = ((Some files, None), w')
    /\ is_Some (files !! "index.html")
    /\ (indexSynthesized w' <-> "index.html" ∉ (pathOf url <$> modules))
    /\ (modules = [] ->
        files = {["index.html" := indexPage url indexContent footer []]})
    /\ size files
       = (if decide ("index.html" ∈ (pathOf url <$> modules))
          then length modules else S (length modules)).
Proof.
  intros Hm Hi.
  destruct (BuildSite_processed url indexContent footer modules freshWorld Hm)
    as (w' & -> & Ht).
  apply indexSynthesized_processed in Ht.
  assert (Hsz : size (sitePages url footer modules ∅) = length modules).
  { rewrite sitePages_size; [by rewrite map_size_empty| apply Hm |].
    intros; apply lookup_empty. }
  destruct (decide ("index.html" ∈ (pathOf url <$> modules))) as [Hin|Hin].
  - eexists _, w'. split; [done|].
    split; [apply sitePages_lookup; by left|].
    split; [done|].
    split; [intros ->; by apply elem_of_nil in Hin|]. done.
  - rewrite (Hi Hin). eexists _, w'. split; [done|].
    split; [rewrite lookup_insert_eq; eauto|].
    split; [done|].
    split; [by intros ->|].
    rewrite map_size_insert_None, Hsz; [done|].
    apply sitePages_lookup_None. split; [done|apply lookup_empty].
Qed.

(** C3. BuildSite returns a map exactly when the modules are processed
    without failure (each has an output path, the paths are distinct, each
    page renders) and the index template, where it is needed, does not
    fail.  Whenever it returns a map, the map has the key index.html, and
    the index template has been executed exactly when no descriptor has the
    path index.html; for the empty descriptor list the map is the single
    entry index.html, and for N descriptors none of which has the path
    index.html the map has exactly N+1 entries (N entries when one of
    them has it). *)
Theorem BuildSite_index_page (url indexContent footer : string)
    (modules : list Module_) :
  ((exists files w',
      BuildSite url indexContent footer modules freshWorld
      = ((Some files, None), w'))
   <-> processed url footer modules
       /\ ("index.html" ∉ (pathOf url <$> modules) ->
           indexError url indexContent footer modules = None))
  /\ (forall files w',
        BuildSite url indexContent footer modules freshWorld
        = ((Some files, None), w') ->
        is_Some (files !! "index.html")
        /\ (indexSynthesized w' <-> "index.html" ∉ (pathOf url <$> modules))
        /\ (modules = [] ->
            files = {["index.html" := indexPage url indexContent footer []]}
            /\ size files = 1%nat)
        /\ ("index.html" ∉ (pathOf url <$> modules) ->
            size files = S (length modules))
        /\ ("index.html" ∈ (pathOf url <$> modules) ->
            size files = length modules)).
Proof.
  split.
  - split.
    + intros (files & w' & E). by apply BuildSite_success_inv in E.
    + intros [Hm Hi].
      destruct (BuildSite_success url indexContent footer modules Hm Hi)
        as (files & w' & E & _). eauto.
  - intros files w' E.
    pose proof (BuildSite_success_inv _ _ _ _ _ _ _ E) as [Hm Hi].
    destruct (BuildSite_success url indexContent footer modules Hm Hi)
      as (files1 & w1 & E1 & Hidx & Hsyn & Hnil & Hsz).
    rewrite E in E1. injection E1 as <- <-.
    split; [done|]. split; [done|].
    split; [|split].
    + intros ->. split; [by apply Hnil|]. by rewrite Hsz.
    + intros Hin. by rewrite Hsz, decide_False.
    + intros Hin. by rewrite Hsz, decide_True.
Qed.

End Site.

(* A site of one module under example.org has two pages. *)
Lemma BuildSite_index_page_witness :
  exists files w',
    BuildSite (H := plainTemplates) "example.org" "index" "footer"
      [exampleModule] freshWorld = ((Some files, None), w')
    /\ is_Some (files !! "index.html")
    /\ size files = 2%nat.
Proof.
  eexists _, _. split; [reflexivity|].
  destruct (BuildSite_index_page (H := plainTemplates)
              "example.org" "index" "footer" [exampleModule])
    as [_ Hp].
  destruct (Hp _ _ eq_refl) as (Hi & _ & _ & Hs & _).
  split; [exact Hi|]. apply Hs.
  vm_compute. intros [[=]|[]%elem_of_nil]%elem_of_cons.
Defined.

(** ** The example of the specification *)

Lemma example_path (m : Module_) :
  ImportPath m = "example.org/mod" ->
  getModuleHTMLPath m "example.org" = ("/mod/index.html", true).
Proof. unfold getModuleHTMLPath. intros ->. reflexivity. Qed.

(** C1, as the code has it.  For a descriptor with import path
    example.org/mod, VCS type git and repository URL
    https://example.org/mod, built under the base URL example.org, the
    output path is /mod/index.html: the rest of the import path after the
    base keeps its leading slash.  When the templates do not fail, BuildSite
    stores the page of the module under that key, and nothing under
    mod/index.html. *)
Theorem example_output_path `{Templates} (m : Module_)
    (indexContent footer : string) (w : World) :
  ImportPath m = "example.org/mod" ->
  VCSType m = "git" ->
  RepoURL m = "https://example.org/mod" ->
  (siteModuleTemplate {| ctxModule := m; ctxFooter := footer |}).2 = None ->
  indexError "example.org" indexContent footer [m] = None ->
  getModuleHTMLPath m "example.org" = ("/mod/index.html", true)
  /\ exists files,
       (BuildSite "example.org" indexContent footer [m] w).1 = (Some files, None)
       /\ files !! "/mod/index.html" = Some (renderedPage footer m)
       /\ files !! "mod/index.html" = None
       /\ size files = 2%nat.
Proof.
  intros Hi Hv Hr Ht Hx.
  pose proof (example_path m Hi) as Hp.
  split; [done|].
  assert (Hpath : pathOf "example.org" m = "/mod/index.html")
    by (unfold pathOf; by rewrite Hp).
  assert (Hm : processed "example.org" footer [m]).
  { repeat split.
    - apply Forall_singleton. unfold placeable. by rewrite Hp.
    - apply NoDup_singleton.
    - apply Forall_singleton. apply renderError_None. split; [|done].
      apply ValidateGoImport_None. rewrite Hi, Hv, Hr.
      repeat split; try done.
      + by apply ContainsFunc_IsSpace_false.
      + unfold vcsKinds. set_solver.
      + by apply ContainsFunc_IsSpace_false. }
  destruct (BuildSite_processed "example.org" indexContent footer [m] w Hm)
    as (w' & -> & _).
  rewrite Hx, list_fmap_singleton, Hpath. cbn [fst].
  rewrite decide_False by (intros [[=]|[]%elem_of_nil]%elem_of_cons).
  eexists. split; [done|].
  unfold sitePages. cbn [foldl]. rewrite Hpath.
  split; [|split].
  - rewrite lookup_insert_ne by done. apply lookup_insert_eq.
  - rewrite !lookup_insert_ne by done. apply lookup_empty.
  - rewrite !map_size_insert_None, map_size_empty; [done|apply lookup_empty|].
    rewrite lookup_insert_ne by done. apply lookup_empty.
Qed.

Lemma example_output_path_witness :
  (getModuleHTMLPath exampleModule "example.org").1 = "/mod/index.html"
  /\ exists files,
       (BuildSite (H := plainTemplates) "example.org" "index" "footer"
          [exampleModule] freshWorld).1 = (Some files, None)
       /\ files !! "mod/index.html" = None.
Proof.
  destruct (example_output_path (H := plainTemplates) exampleModule
              "index" "footer" freshWorld)
    as (Hp & files & Hf & _ & Hn & _); try reflexivity.
  split; [by rewrite Hp|]. exists files. split; [exact Hf|exact Hn].
Defined.

(** C1, counterexample: the path computed for the descriptor of the
    specification starts with a slash; it is not mod/index.html. *)
Lemma example_output_path_rooted :
  getModuleHTMLPath exampleModule "example.org" = ("/mod/index.html", true)
  /\ (getModuleHTMLPath exampleModule "example.org").1 <> "mod/index.html".
Proof. split; [reflexivity|]. vm_compute. discriminate. Qed.

(** C2, counterexample: the second and third descriptor have the same
    output path, and yet the error is not the duplicate-destination error:
    the first descriptor lies outside the base, and it is its error that
    BuildSite returns. *)
Lemma BuildSite_duplicate_not_reported :
  pathOf "example.org" exampleModule = "/mod/index.html"
  /\ (BuildSite (H := plainTemplates) "example.org" "index" "footer"
        [otherModule; exampleModule; exampleModule] freshWorld).1
     = (None, Some (errModulePath "other.org/x"))
  /\ (BuildSite (H := plainTemplates) "example.org" "index" "footer"
        [otherModule; exampleModule; exampleModule] freshWorld).1
     <> (None, Some (errDuplicateDestination "/mod/index.html")).
Proof.
  split; [reflexivity|]. split; [reflexivity|]. vm_compute. discriminate.
Qed.

(** * Further properties *)

(** ** Runes of a concatenation *)

Lemma decode_ascii (c : ascii) (b : string) :
  utf8.byteZ c < 0x80 ->
  utf8.DecodeRuneInString (String c b) = (utf8.byteZ c, 1%nat).
Proof.
  intros Hc. unfold utf8.DecodeRuneInString. cbv zeta.
  destruct (first_class (utf8.byteZ c)) as [?|?|x Hx Hsz Hlo Hhi Hb];
    [reflexivity|lia|lia].
Qed.

(* An ASCII byte after the string does not change the rune decoded
   first. *)
Lemma decode_app_ascii (a b : string) (c : ascii) :
  a <> "" -> utf8.byteZ c < 0x80 ->
  utf8.DecodeRuneInString (a +:+ String c b) = utf8.DecodeRuneInString a.
Proof.
  destruct a as [|c0 t]; [done|]. intros _ Hc.
  rewrite append_cons.
  unfold utf8.DecodeRuneInString.
  cbv zeta.
  destruct (first_class (utf8.byteZ c0)) as [?|?|x Hx Hsz Hlo Hhi Hb].
  - reflexivity.
  - reflexivity.
  - set (sz := Z.land x 7) in *.
    set (lo := fst (utf8.acceptRanges (Z.shiftr x 4))) in *.
    set (hi := snd (utf8.acceptRanges (Z.shiftr x 4))) in *.
    unfold utf8.locb, utf8.hicb in *.
    destruct (utf8.as_ <=? x) eqn:E; [apply Z.leb_le in E; lia|].
    destruct t as [|c1 [|c2 [|c3 t]]];
      rewrite ?append_cons, ?append_nil_l; simpl String.length;
      split_conds; simpl; try reflexivity; try lia.
Qed.

Lemma rangeFrom_app_ascii (a b : string) (c : ascii) (skip : nat) (i : Z) :
  utf8.byteZ c < 0x80 ->
  (skip <= String.length a)%nat ->
  utf8.rangeFrom (a +:+ String c b) skip i =
  utf8.rangeFrom a skip i
  ++ utf8.rangeFrom (String c b) 0 (i + Z.of_nat (String.length a)).
Proof.
  intros Hc. revert skip i. induction a as [|c0 t IH]; intros skip i Hskip.
  - simpl in Hskip. assert (skip = 0%nat) as -> by lia.
    rewrite append_nil_l. simpl String.length.
    replace (i + Z.of_nat 0) with i by lia. reflexivity.
  - rewrite append_cons. simpl String.length in *.
    replace (i + Z.of_nat (S (String.length t)))
      with (i + 1 + Z.of_nat (String.length t)) by lia.
    destruct skip as [|k].
    + unfold utf8.rangeFrom; fold utf8.rangeFrom.
      rewrite <- append_cons, decode_app_ascii by done.
      destruct (utf8.DecodeRuneInString (String c0 t)) as [r w] eqn:E.
      apply decode_width in E as [Hw _]. simpl String.length in Hw.
      rewrite IH by lia. reflexivity.
    + simpl. apply IH. lia.
Qed.

Lemma rangeFrom_runes_shift (s : string) (k : nat) (i j : Z) :
  (utf8.rangeFrom s k i).*2 = (utf8.rangeFrom s k j).*2.
Proof.
  revert k i j. induction s as [|c t IH]; intros k i j; [done|].
  simpl. destruct k.
  - destruct (utf8.DecodeRuneInString (String c t)) as [r w].
    simpl. f_equal. apply IH.
  - apply IH.
Qed.

Lemma runes_app_ascii (a b : string) (c : ascii) :
  utf8.byteZ c < 0x80 ->
  runes (a +:+ String c b) = runes a ++ runes (String c b).
Proof.
  intros Hc. unfold runes, utf8.range.
  rewrite rangeFrom_app_ascii by (done || lia).
  rewrite fmap_app. f_equal. apply rangeFrom_runes_shift.
Qed.

Lemma runes_ascii_cons (c : ascii) (b : string) :
  utf8.byteZ c < 0x80 -> runes (String c b) = utf8.byteZ c :: runes b.
Proof.
  intros Hc. unfold runes, utf8.range. simpl.
  rewrite decode_ascii by done. simpl. f_equal. apply rangeFrom_runes_shift.
Qed.

Lemma runes_allASCII_app (a b : string) :
  allASCII a = true -> runes (a +:+ b) = runes a ++ runes b.
Proof.
  induction a as [|c t IH]; [done|]. simpl.
  intros [Hc Ht]%andb_true_iff. apply Z.ltb_lt in Hc.
  rewrite append_cons, !runes_ascii_cons, IH by done. done.
Qed.

Lemma hasSpace_app (a b : string) :
  runes (a +:+ b) = runes a ++ runes b ->
  hasSpace (a +:+ b) <-> hasSpace a \/ hasSpace b.
Proof.
  intros E. unfold hasSpace. rewrite E. split.
  - intros (r & [?|?]%elem_of_app & Hr); [left|right]; eauto.
  - intros [(r & ? & Hr)|(r & ? & Hr)]; exists r; rewrite elem_of_app; auto.
Qed.

Lemma hasSpace_app_ascii (a b : string) (c : ascii) :
  utf8.byteZ c < 0x80 ->
  hasSpace (a +:+ String c b) <-> hasSpace a \/ hasSpace (String c b).
Proof. intros Hc. apply hasSpace_app. by apply runes_app_ascii. Qed.

Lemma hasSpace_allASCII_app (a b : string) :
  allASCII a = true -> hasSpace (a +:+ b) <-> hasSpace a \/ hasSpace b.
Proof. intros Ha. apply hasSpace_app. by apply runes_allASCII_app. Qed.

(** ** module.go: the go-source validation and the meta tags *)

(** X1. ValidateGoSource returns nil exactly when the import path is
    non-empty and free of whitespace, the home page is free of whitespace
    (it may be empty), and both link templates are non-empty and free of
    whitespace.  The VCS type and the repository URL do not affect the
    result.  When it fails, the error is the sentinel of the first failing
    constraint, in the order import path, home page, directory link
    template, file link template. *)
Theorem ValidateGoSource_spec (d : Module_) :
  (ValidateGoSource d = None <->
     (ImportPath d <> "" /\ ~ hasSpace (ImportPath d))
     /\ ~ hasSpace (HomePage d)
     /\ (DirectoryLinkTemplate d <> "" /\ ~ hasSpace (DirectoryLinkTemplate d))
     /\ (FileLinkTemplate d <> "" /\ ~ hasSpace (FileLinkTemplate d)))
  /\ (forall v r,
        ValidateGoSource
          {| ImportPath := ImportPath d; VCSType := v; RepoURL := r;
             HomePage := HomePage d;
             DirectoryLinkTemplate := DirectoryLinkTemplate d;
             FileLinkTemplate := FileLinkTemplate d |}
        = ValidateGoSource d)
  /\ (ImportPath d = "" \/ hasSpace (ImportPath d) ->
      ValidateGoSource d = Some errInvalidModuleName)
  /\ (ImportPath d <> "" /\ ~ hasSpace (ImportPath d) ->
      hasSpace (HomePage d) ->
      ValidateGoSource d = Some errInvalidHomePage)
  /\ (ImportPath d <> "" /\ ~ hasSpace (ImportPath d) ->
      ~ hasSpace (HomePage d) ->
      DirectoryLinkTemplate d = "" \/ hasSpace (DirectoryLinkTemplate d) ->
      ValidateGoSource d = Some errInvalidDirectoryLinkTemplate)
  /\ (ImportPath d <> "" /\ ~ hasSpace (ImportPath d) ->
      ~ hasSpace (HomePage d) ->
      DirectoryLinkTemplate d <> "" /\ ~ hasSpace (DirectoryLinkTemplate d) ->
      FileLinkTemplate d = "" \/ hasSpace (FileLinkTemplate d) ->
      ValidateGoSource d = Some errInvalidFileLinkTemplate).
Proof.
  split; [apply ValidateGoSource_None|].
  split; [done|].
  assert (Hhp : forall b : bool,
            ~ hasSpace (HomePage d) ->
            b && strings.ContainsFunc (HomePage d) unicode.IsSpace = false).
  { intros b Hn. apply ContainsFunc_IsSpace_false in Hn. rewrite Hn.
    by destruct b. }
  unfold ValidateGoSource.
  split; [|split; [|split]].
  - intros Hi%name_check_true. by rewrite Hi.
  - intros Hi%name_check Hh. rewrite Hi.
    assert (HomePage d <> "") as Hne.
    { intros E. rewrite E in Hh. by apply ContainsFunc_IsSpace in Hh. }
    apply ContainsFunc_IsSpace in Hh.
    by rewrite (bool_decide_eq_false_2 _ Hne), Hh.
  - intros Hi%name_check Hh Hd%name_check_true.
    by rewrite Hi, (Hhp _ Hh), Hd.
  - intros Hi%name_check Hh Hd%name_check Hf%name_check_true.
    by rewrite Hi, (Hhp _ Hh), Hd, Hf.
Qed.

Section Tags.
Context `{Templates}.

Lemma renderMeta_nonempty (name value : string) : renderMeta name value <> "".
Proof. unfold renderMeta. done. Qed.

(** X2. GoImportTag is the empty string exactly when ValidateGoImport
    fails, and GoSourceTag is the empty string exactly when
    ValidateGoSource fails; for a valid descriptor the tag is the meta
    element of the name go-import (go-source) rendered with the tag value
    of the descriptor. *)
Theorem tags_empty_iff_invalid (d : Module_) :
  (GoImportTag d = "" <-> ValidateGoImport d <> None)
  /\ (GoSourceTag d = "" <-> ValidateGoSource d <> None)
  /\ (ValidateGoImport d = None ->
      GoImportTag d
      = renderMeta "go-import"
          (ImportPath d +:+ " " +:+ VCSType d +:+ " " +:+ RepoURL d))
  /\ (ValidateGoSource d = None ->
      GoSourceTag d
      = renderMeta "go-source"
          (ImportPath d +:+ " " +:+ homePageOrUnderscore d +:+ " "
           +:+ DirectoryLinkTemplate d +:+ " " +:+ FileLinkTemplate d)).
Proof.
  unfold GoImportTag, GoSourceTag.
  rewrite <- GoImport_empty_iff, <- GoSource_empty_iff.
  split; [|split; [|split]].
  - destruct (decide (GoImport d = "")) as [E|E].
    + by rewrite (bool_decide_eq_true_2 _ E).
    + rewrite (bool_decide_eq_false_2 _ E).
      split; [|done]. intros E'. by apply renderMeta_nonempty in E'.
  - destruct (decide (GoSource d = "")) as [E|E].
    + by rewrite (bool_decide_eq_true_2 _ E).
    + rewrite (bool_decide_eq_false_2 _ E).
      split; [|done]. intros E'. by apply renderMeta_nonempty in E'.
  - intros Hv.
    assert (GoImport d <> "") as E
      by (rewrite GoImport_empty_iff; congruence).
    by rewrite (bool_decide_eq_false_2 _ E), (GoImport_valid d Hv).
  - intros Hv.
    assert (GoSource d <> "") as E
      by (rewrite GoSource_empty_iff; congruence).
    by rewrite (bool_decide_eq_false_2 _ E), (GoSource_valid d Hv).
Qed.

(** X3. A descriptor whose import path is empty or contains whitespace
    can produce neither tag: both validations report the invalid module
    name, both tag values and both tags are the empty string, and
    RenderSite fails before the template is executed. *)
Theorem invalid_import_path (d : Module_) (footer : string) (w : World) :
  ImportPath d = "" \/ hasSpace (ImportPath d) ->
  ValidateGoImport d = Some errInvalidModuleName
  /\ ValidateGoSource d = Some errInvalidModuleName
  /\ GoImport d = "" /\ GoSource d = ""
  /\ GoImportTag d = "" /\ GoSourceTag d = ""
  /\ RenderSite d footer w
     = (Some (errNoValidGoImport errInvalidModuleName), w).
Proof.
  intros Hi%name_check_true.
  assert (Hv : ValidateGoImport d = Some errInvalidModuleName)
    by (unfold ValidateGoImport; by rewrite Hi).
  assert (Hs : ValidateGoSource d = Some errInvalidModuleName)
    by (unfold ValidateGoSource; by rewrite Hi).
  assert (Hgi : GoImport d = "") by (unfold GoImport; by rewrite Hv).
  assert (Hgs : GoSource d = "") by (unfold GoSource; by rewrite Hi).
  repeat split; try done.
  - unfold GoImportTag. by rewrite Hgi.
  - unfold GoSourceTag. by rewrite Hgs.
  - by apply RenderSite_invalid.
Qed.

End Tags.

Lemma invalid_import_path_witness :
  hasSpace "example.org/my mod"
  /\ GoImport (mkModule "example.org/my mod" "git" "https://example.org/mod" "" "" "") = "".
Proof.
  assert (Hs : hasSpace "example.org/my mod") by (by apply ContainsFunc_IsSpace).
  split; [exact Hs|].
  apply (invalid_import_path (H := plainTemplates)
           (mkModule "example.org/my mod" "git" "https://example.org/mod" "" "" "")
           "" freshWorld).
  right. exact Hs.
Defined.

(** X4. The empty home page and the underscore are interchangeable: a
    descriptor gives the same go-source value, the same result of
    ValidateGoSource, the same home page URL and the same source code URL
    with either of them. *)
Theorem home_page_underscore (d : Module_) :
  GoSource (withHomePage d "") = GoSource (withHomePage d "_")
  /\ ValidateGoSource (withHomePage d "") = ValidateGoSource (withHomePage d "_")
  /\ HomePageURL (withHomePage d "") = HomePageURL (withHomePage d "_")
  /\ SourceCodeURL (withHomePage d "") = SourceCodeURL (withHomePage d "_")
  /\ HomePageURL (withHomePage d "") = "https://pkg.go.dev/" +:+ ImportPath d.
Proof.
  repeat split.
Qed.

(** ** forge.go and the links of site.go *)

Lemma append_cons_nonempty (a b : string) (c : ascii) :
  a +:+ String c b <> "".
Proof. by destruct a. Qed.

(* A suffix that starts with an ASCII byte and has no whitespace: trimming
   it neither adds nor removes whitespace. *)
Lemma trimmedSuffix_hasSpace (s r t : string) (c : ascii) :
  utf8.byteZ c < 0x80 -> ~ hasSpace (String c t) ->
  trimmedSuffix s (String c t) r ->
  hasSpace s <-> hasSpace r.
Proof.
  intros Hc Hn [->|[_ ->]]; [|done].
  rewrite hasSpace_app_ascii by done. tauto.
Qed.

Lemma forge_url_hasSpace (repoURL : string) :
  hasSpace (strings.TrimSuffix (strings.TrimSuffix repoURL ".git") "/")
  <-> hasSpace repoURL.
Proof.
  assert (H1 : ~ hasSpace ".git") by by apply ContainsFunc_IsSpace_false.
  assert (H2 : ~ hasSpace "/") by by apply ContainsFunc_IsSpace_false.
  assert (A1 : utf8.byteZ "." < 0x80) by done.
  assert (A2 : utf8.byteZ "/" < 0x80) by done.
  rewrite <- (trimmedSuffix_hasSpace _ _ _ _ A2 H2
                (TrimSuffix_spec (strings.TrimSuffix repoURL ".git") "/")).
  symmetry.
  apply (trimmedSuffix_hasSpace _ _ _ _ A1 H1 (TrimSuffix_spec repoURL ".git")).
Qed.

(* A link template of the forge: a URL, a fixed ASCII part, the ref and a
   fixed ASCII part. *)
Lemma forge_template_hasSpace (url mid ref tl : string) (c : ascii) :
  allASCII (String c mid) = true -> ~ hasSpace (String c mid) ->
  allASCII tl = true -> tl <> "" -> ~ hasSpace tl ->
  hasSpace (url +:+ String c mid +:+ ref +:+ tl)
  <-> hasSpace url \/ hasSpace ref.
Proof.
  intros Hm Hmn Ht Hte Htn.
  pose proof Hm as [Hc _]%andb_true_iff. apply Z.ltb_lt in Hc.
  change (url +:+ String c mid +:+ ref +:+ tl)
    with (url +:+ String c (mid +:+ ref +:+ tl)).
  rewrite hasSpace_app_ascii by done.
  change (String c (mid +:+ ref +:+ tl)) with (String c mid +:+ ref +:+ tl).
  rewrite hasSpace_allASCII_app by done.
  destruct tl as [|c' tl]; [done|].
  pose proof Ht as [Hc' _]%andb_true_iff. apply Z.ltb_lt in Hc'.
  rewrite hasSpace_app_ascii by done. tauto.
Qed.

(** X5. The descriptor of GitForgeModule has whitespace in its URL exactly
    when the given repository URL has.  It passes ValidateGoImport exactly
    when the import path is non-empty and free of whitespace, the trimmed
    URL is non-empty and the repository URL is free of whitespace; it
    passes ValidateGoSource exactly when the import path is non-empty and
    free of whitespace and neither the repository URL nor the ref contains
    whitespace. *)
Theorem GitForgeModule_valid (importPath repoURL ref : string) :
  let m := GitForgeModule importPath repoURL ref in
  (hasSpace (RepoURL m) <-> hasSpace repoURL)
  /\ (ValidateGoImport m = None <->
      (importPath <> "" /\ ~ hasSpace importPath)
      /\ RepoURL m <> "" /\ ~ hasSpace repoURL)
  /\ (ValidateGoSource m = None <->
      (importPath <> "" /\ ~ hasSpace importPath)
      /\ ~ hasSpace repoURL /\ ~ hasSpace ref).
Proof.
  intros m. subst m.
  pose proof (forge_url_hasSpace repoURL) as Hu.
  split; [exact Hu|]. split.
  - rewrite ValidateGoImport_None. unfold GitForgeModule. simpl.
    rewrite Hu. unfold vcsKinds. split.
    + intros (Hi & _ & Hne & Hn). done.
    + intros (Hi & Hne & Hn). repeat split; try tauto.
      rewrite !elem_of_cons. auto.
  - rewrite ValidateGoSource_None. unfold GitForgeModule. simpl.
    rewrite (forge_template_hasSpace _ "tree/" ref "{/dir}" "/");
      [|done|by apply ContainsFunc_IsSpace_false|done|done
       |by apply ContainsFunc_IsSpace_false].
    rewrite (forge_template_hasSpace _ "blob/" ref "{/dir}/{file}#L{line}" "/");
      [|done|by apply ContainsFunc_IsSpace_false|done|done
       |by apply ContainsFunc_IsSpace_false].
    rewrite Hu. split.
    + intros (Hi & Hh & (_ & Hd) & _). tauto.
    + intros (Hi & Hr & Hf). repeat split; try tauto.
      * apply (append_cons_nonempty _ _ "/").
      * apply (append_cons_nonempty _ _ "/").
Qed.

Lemma HomePageURL_not_underscore (d : Module_) : HomePageURL d <> "_".
Proof.
  unfold HomePageURL.
  destruct (decide (HomePage d = "")) as [E|E].
  - by rewrite (bool_decide_eq_true_2 _ E).
  - rewrite (bool_decide_eq_false_2 _ E).
    destruct (decide (HomePage d = "_")) as [E'|E'].
    + by rewrite (bool_decide_eq_true_2 _ E').
    + by rewrite (bool_decide_eq_false_2 _ E').
Qed.

(** X6. The links of a forge descriptor: its directory link template is
    never empty, so its source code URL is never empty and equals its home
    page URL; both are the trimmed repository URL when that is neither
    empty nor the underscore, and the pkg.go.dev URL of the import path
    otherwise. *)
Theorem GitForgeModule_links (importPath repoURL ref : string) :
  let m := GitForgeModule importPath repoURL ref in
  DirectoryLinkTemplate m <> ""
  /\ SourceCodeURL m <> ""
  /\ SourceCodeURL m = HomePageURL m
  /\ (RepoURL m <> "" -> RepoURL m <> "_" -> SourceCodeURL m = RepoURL m)
  /\ (RepoURL m = "" \/ RepoURL m = "_" ->
      SourceCodeURL m = "https://pkg.go.dev/" +:+ importPath).
Proof.
  intros m.
  assert (Hd : DirectoryLinkTemplate m <> "")
    by apply (append_cons_nonempty _ _ "/").
  assert (Hs : SourceCodeURL m = HomePageURL m).
  { unfold SourceCodeURL, HomePageURL.
    by rewrite (bool_decide_eq_false_2 _ Hd). }
  split; [done|]. rewrite Hs.
  split; [apply HomePageURL_nonempty|]. split; [done|].
  unfold HomePageURL. subst m. simpl. split.
  - intros E1 E2.
    by rewrite (bool_decide_eq_false_2 _ E1), (bool_decide_eq_false_2 _ E2).
  - intros [E|E]; rewrite E; done.
Qed.

(** X7. The home page URL of a descriptor is never the empty string and
    never the underscore, and the source code URL is never the underscore:
    the sentinel of the go-source value does not reach the links of the
    page. *)
Theorem links_never_sentinel (d : Module_) :
  HomePageURL d <> "" /\ HomePageURL d <> "_" /\ SourceCodeURL d <> "_".
Proof.
  split; [apply HomePageURL_nonempty|].
  split; [apply HomePageURL_not_underscore|].
  unfold SourceCodeURL.
  destruct (bool_decide (DirectoryLinkTemplate d = "")); [done|].
  apply HomePageURL_not_underscore.
Qed.

(** ** site.go: output paths *)

Lemma TrimSuffix_app (p suffix : string) :
  strings.TrimSuffix (p +:+ suffix) suffix = p.
Proof.
  unfold strings.TrimSuffix.
  rewrite (proj2 (HasSuffix_true (p +:+ suffix) suffix)) by eauto.
  rewrite length_append.
  replace (String.length p + String.length suffix - String.length suffix)%nat
    with (String.length p) by lia.
  apply takeBytes_app.
Qed.

Lemma TrimSuffix_no_suffix (s suffix : string) :
  (forall p, s <> p +:+ suffix) -> strings.TrimSuffix s suffix = s.
Proof.
  intros Hn. unfold strings.TrimSuffix.
  destruct (strings.HasSuffix s suffix) eqn:E; [|done].
  apply HasSuffix_true in E as [p ->]. by destruct (Hn p).
Qed.

Lemma TrimPrefix_app (prefix t : string) :
  strings.TrimPrefix (prefix +:+ t) prefix = t.
Proof.
  unfold strings.TrimPrefix.
  rewrite (proj2 (HasPrefix_true (prefix +:+ t) prefix)) by eauto.
  apply dropBytes_app.
Qed.

Lemma TrimPrefix_no_prefix (s prefix : string) :
  (forall t, s <> prefix +:+ t) -> strings.TrimPrefix s prefix = s.
Proof.
  intros Hn. unfold strings.TrimPrefix.
  destruct (strings.HasPrefix s prefix) eqn:E; [|done].
  apply HasPrefix_true in E as [t ->]. by destruct (Hn t).
Qed.

Lemma getModuleHTMLPath_base (m : Module_) (url : string) :
  getModuleHTMLPath m url =
  if negb (strings.HasPrefix (ImportPath m) (normalizedBase url))
  then ("", false)
  else (filepath.Join
          [strings.TrimSuffix
             (strings.dropBytes (String.length (normalizedBase url))
                (ImportPath m)) "/";
           "index.html"], true).
Proof. reflexivity. Qed.

Lemma normalizedBase_trailing_slash (url : string) :
  (forall p, url <> p +:+ "/") ->
  normalizedBase (url +:+ "/") = normalizedBase url.
Proof.
  intros Hn. unfold normalizedBase.
  by rewrite TrimSuffix_app, TrimSuffix_no_suffix.
Qed.

Lemma normalizedBase_leading_slash (url : string) :
  (forall t, url <> "/" +:+ t) ->
  normalizedBase ("/" +:+ url) = normalizedBase url.
Proof.
  intros Hn. unfold normalizedBase.
  destruct (strings.HasSuffix url "/") eqn:E.
  - apply HasSuffix_true in E as [q ->].
    change ("/" +:+ q +:+ "/") with (("/" +:+ q) +:+ "/").
    rewrite !TrimSuffix_app, TrimPrefix_app.
    symmetry. apply TrimPrefix_no_prefix. intros t ->.
    apply (Hn (t +:+ "/")). done.
  - assert (Hs : forall p, url <> p +:+ "/").
    { intros p ->.
      assert (strings.HasSuffix (p +:+ "/") "/" = true)
        by (apply HasSuffix_true; eauto).
      congruence. }
    rewrite (TrimSuffix_no_suffix url) by done.
    rewrite (TrimPrefix_no_prefix url) by done.
    destruct url as [|c t]; [done|].
    rewrite TrimSuffix_no_suffix.
    + apply TrimPrefix_app.
    + intros [|c' p] E'; [by destruct t|].
      injection E' as _ E'. by apply (Hs p).
Qed.

(** X8. The base URL may be written with or without a slash at either
    end: adding a trailing slash to a base that has none, or a leading
    slash to a base that has none, changes no output path.  Under the
    empty base, and under the base that is a single slash, every
    descriptor has an output path. *)
Theorem base_slashes_irrelevant (m : Module_) (url : string) :
  ((forall p, url <> p +:+ "/") ->
   getModuleHTMLPath m (url +:+ "/") = getModuleHTMLPath m url)
  /\ ((forall t, url <> "/" +:+ t) ->
      getModuleHTMLPath m ("/" +:+ url) = getModuleHTMLPath m url)
  /\ placeable "" m /\ placeable "/" m.
Proof.
  split; [|split; [|split]].
  - intros Hn.
    by rewrite !getModuleHTMLPath_base, normalizedBase_trailing_slash.
  - intros Hn.
    by rewrite !getModuleHTMLPath_base, normalizedBase_leading_slash.
  - apply placeable_prefix. by exists (ImportPath m).
  - apply placeable_prefix. by exists (ImportPath m).
Qed.

Lemma dropBytes_all (s : string) : strings.dropBytes (String.length s) s = "".
Proof. by induction s. Qed.

Lemma root_module_path (m : Module_) (url : string) :
  ImportPath m = normalizedBase url
  \/ ImportPath m = normalizedBase url +:+ "/" ->
  getModuleHTMLPath m url = ("index.html", true).
Proof.
  intros Hm. rewrite getModuleHTMLPath_base.
  rewrite (proj2 (HasPrefix_true _ _)); cycle 1.
  { destruct Hm as [->| ->]; [exists ""; by rewrite append_nil_r|eauto]. }
  simpl negb. cbv iota.
  destruct Hm as [->| ->].
  - by rewrite dropBytes_all.
  - by rewrite dropBytes_app.
Qed.

Section Root.
Context `{Templates}.

(** X9. A descriptor whose import path is the normalized base itself, or
    the base followed by one slash, has the output path index.html.  When
    a site with such a descriptor is built without failure, the page of
    that descriptor is the entry index.html of the returned map, the index
    template is not executed, and the map has one entry per descriptor. *)
Theorem root_module_replaces_index (url indexContent footer : string)
    (modules : list Module_) (m : Module_) :
  processed url footer modules ->
  m ∈ modules ->
  ImportPath m = normalizedBase url
  \/ ImportPath m = normalizedBase url +:+ "/" ->
  getModuleHTMLPath m url = ("index.html", true)
  /\ exists files w',
       BuildSite url indexContent footer modules freshWorld
       = ((Some files, None), w')
       /\ files !! "index.html" = Some (renderedPage footer m)
       /\ ~ indexSynthesized w'
       /\ size files = length modules.
Proof.
  intros Hp Hm Hi.
  pose proof (root_module_path m url Hi) as Hg.
  split; [done|].
  assert (Hpath : pathOf url m = "index.html") by (unfold pathOf; by rewrite Hg).
  assert (Hin : "index.html" ∈ (pathOf url <$> modules)).
  { rewrite <- Hpath. apply list_elem_of_fmap. eauto. }
  destruct (BuildSite_processed url indexContent footer modules freshWorld Hp)
    as (w' & -> & Ht).
  rewrite decide_True in * by done.
  eexists _, w'. split; [done|]. split; [|split].
  - rewrite <- Hpath. apply sitePages_page; [apply Hp|done].
  - apply indexSynthesized_processed in Ht. rewrite Ht. tauto.
  - rewrite sitePages_size; [by rewrite map_size_empty|apply Hp|].
    intros; apply lookup_empty.
Qed.

End Root.

Lemma root_module_replaces_index_witness :
  let root := mkModule "example.org" "git" "https://example.org/root" "" "" "" in
  exists files w',
    BuildSite (H := plainTemplates) "example.org/" "index" "footer"
      [exampleModule; root] freshWorld = ((Some files, None), w')
    /\ files !! "index.html" = Some (renderedPage (H := plainTemplates) "footer" root)
    /\ size files = 2%nat.
Proof.
  intros root.
  assert (Hp : processed (H := plainTemplates) "example.org/" "footer"
                 [exampleModule; root]).
  { repeat split.
    - by repeat constructor.
    - vm_compute. repeat constructor.
      + intros [[=]|[]%elem_of_nil]%elem_of_cons.
      + by intros []%elem_of_nil.
    - by repeat constructor. }
  destruct (root_module_replaces_index (H := plainTemplates)
              "example.org/" "index" "footer" [exampleModule; root] root Hp)
    as (_ & files & w' & E & Hi & _ & Hs).
  - right. left.
  - by left.
  - exists files, w'. split; [exact E|]. split; [exact Hi|exact Hs].
Defined.

Lemma SplitByte_nonempty (s : string) (sep : ascii) :
  strings.SplitByte s sep <> [].
Proof.
  destruct s as [|c t]; [done|]. simpl.
  destruct (bool_decide (c = sep)); [done|].
  by destruct (strings.SplitByte t sep).
Qed.

(* Splitting distributes over a separator. *)
Lemma SplitByte_sep (a b : string) (sep : ascii) :
  strings.SplitByte (a +:+ String sep b) sep
  = strings.SplitByte a sep ++ strings.SplitByte b sep.
Proof.
  induction a as [|c t IH].
  - rewrite append_nil_l. simpl. by rewrite bool_decide_eq_true_2.
  - rewrite append_cons. simpl. rewrite IH.
    destruct (bool_decide (c = sep)); [done|].
    pose proof (SplitByte_nonempty t sep).
    by destruct (strings.SplitByte t sep).
Qed.

Lemma Join_snoc (l : list string) (e sep : string) :
  l <> [] ->
  strings.Join (l ++ [e]) sep = strings.Join l sep +:+ sep +:+ e.
Proof.
  induction l as [|x l IH]; [done|]. intros _.
  destruct l as [|y l]; [done|].
  change (strings.Join ((x :: y :: l) ++ [e]) sep)
    with (x +:+ sep +:+ strings.Join ((y :: l) ++ [e]) sep).
  rewrite IH by done.
  change (strings.Join (x :: y :: l) sep)
    with (x +:+ sep +:+ strings.Join (y :: l) sep).
  by rewrite !append_assoc.
Qed.

(* Cleaning a path whose last element is index.html: the result ends with
   that element, after a slash unless it is the whole result. *)
Lemma Clean_index (p : string) :
  p <> "" ->
  exists d, filepath.Clean (p +:+ "/index.html") = d +:+ "index.html"
            /\ (d = "" \/ exists d', d = d' +:+ "/").
Proof.
  intros Hp. destruct p as [|c t]; [done|].
  rewrite append_cons. unfold filepath.Clean.
  rewrite <- append_cons.
  change (String c t +:+ "/index.html")
    with (String c t +:+ String filepath.Separator "index.html").
  rewrite SplitByte_sep.
  change (strings.SplitByte "index.html" filepath.Separator) with ["index.html"].
  rewrite fold_left_app.
  set (out := fold_left _ (strings.SplitByte (String c t) filepath.Separator) []).
  change (fold_left (filepath.cleanElem (bool_decide (c = filepath.Separator)))
            ["index.html"] out) with ("index.html" :: out).
  cbv zeta. change (rev ("index.html" :: out)) with (rev out ++ ["index.html"]).
  destruct (rev out) as [|x l] eqn:E.
  - change (strings.Join ([] ++ ["index.html"]) "/") with "index.html".
    destruct (bool_decide (c = filepath.Separator)).
    + exists "/". split; [done|]. right. by exists "".
    + exists "". split; [done|]. by left.
  - rewrite Join_snoc by done.
    set (j := strings.Join (x :: l) "/").
    destruct (bool_decide (c = filepath.Separator)).
    + exists ("/" +:+ j +:+ "/"). split.
      * by rewrite !append_assoc.
      * right. by exists ("/" +:+ j).
    + destruct (decide (j +:+ "/" +:+ "index.html" = "")) as [E'|_].
      { exfalso. revert E'. by destruct j. }
      exists (j +:+ "/"). split.
      * by rewrite !append_assoc.
      * right. by exists j.
Qed.

Lemma output_path_ends_with_index_aux (m : Module_) (url : string) :
  placeable url m ->
  exists d,
    pathOf url m = d +:+ "index.html"
    /\ strings.TrimSuffix (pathOf url m) "index.html" = d
    /\ (d = "" \/ exists d', d = d' +:+ "/").
Proof.
  unfold placeable, pathOf. rewrite getModuleHTMLPath_base.
  destruct (negb _); [done|]. intros _. cbn [fst].
  set (p := strings.TrimSuffix _ "/").
  assert (exists d, filepath.Join [p; "index.html"] = d +:+ "index.html"
                    /\ (d = "" \/ exists d', d = d' +:+ "/"))
    as (d & E & Hd).
  { destruct p as [|c t] eqn:Ep.
    - exists "". split; [done|]. by left.
    - rewrite <- Ep. unfold filepath.Join. rewrite Ep.
      rewrite decide_False by done. fold filepath.Join. rewrite <- Ep.
      change (strings.Join [p; "index.html"] "/") with (p +:+ "/index.html").
      apply Clean_index. by rewrite Ep. }
  exists d. rewrite E. split; [done|]. split; [|done].
  apply TrimSuffix_app.
Qed.

(** X10. Every output path ends with index.html, either as the whole path
    or after a slash; the canonical relative URL recorded for the index
    page, the path with the trailing index.html trimmed, is therefore the
    directory of the page: followed by index.html it gives the path
    back. *)
Theorem output_path_ends_with_index (m : Module_) (url : string) :
  placeable url m ->
  exists d,
    pathOf url m = d +:+ "index.html"
    /\ strings.TrimSuffix (pathOf url m) "index.html" = d
    /\ strings.TrimSuffix (pathOf url m) "index.html" +:+ "index.html"
       = pathOf url m
    /\ (d = "" \/ exists d', d = d' +:+ "/").
Proof.
  intros Hp.
  destruct (output_path_ends_with_index_aux m url Hp) as (d & E & Ht & Hd).
  exists d. split; [done|]. split; [done|]. split; [by rewrite Ht, E|done].
Qed.

Lemma output_path_ends_with_index_witness :
  placeable "example.org" exampleModule
  /\ strings.TrimSuffix (pathOf "example.org" exampleModule) "index.html"
     +:+ "index.html" = pathOf "example.org" exampleModule.
Proof.
  split; [reflexivity|].
  destruct (output_path_ends_with_index exampleModule "example.org")
    as (d & _ & _ & E & _); [reflexivity|].
  exact E.
Defined.

(** ** site.go: the index and the order of the modules *)

Lemma pathOf_ImportPath (url : string) (m1 m2 : Module_) :
  ImportPath m1 = ImportPath m2 -> pathOf url m1 = pathOf url m2.
Proof. unfold pathOf, getModuleHTMLPath. by intros ->. Qed.

Lemma siteURLs_other (url : string) (modules : list Module_)
    (urls : gmap string string) (k : string) :
  k ∉ (ImportPath <$> modules) ->
  siteURLs url modules urls !! k = urls !! k.
Proof.
  revert urls. induction modules as [|m rest IH]; intros urls Hk; [done|].
  rewrite fmap_cons, not_elem_of_cons in Hk. destruct Hk as [Hk1 Hk2].
  unfold siteURLs in *. simpl. rewrite IH by done.
  by rewrite lookup_insert_ne.
Qed.

Lemma siteURLs_module (url : string) (modules : list Module_)
    (urls : gmap string string) (m : Module_) :
  m ∈ modules ->
  siteURLs url modules urls !! ImportPath m
  = Some (strings.TrimSuffix (pathOf url m) "index.html").
Proof.
  revert urls m. induction modules as [|m' rest IH]; intros urls m Hm.
  - by apply elem_of_nil in Hm.
  - destruct (decide (ImportPath m ∈ (ImportPath <$> rest))) as [Hin|Hin].
    + apply list_elem_of_fmap in Hin as (m'' & E & Hm'').
      rewrite E, (pathOf_ImportPath url m m'' E).
      unfold siteURLs. simpl. by apply IH.
    + apply elem_of_cons in Hm as [->|Hm].
      * change (siteURLs url (m' :: rest) urls)
          with (siteURLs url rest
                  (<[ImportPath m' := strings.TrimSuffix (pathOf url m') "index.html"]> urls)).
        rewrite siteURLs_other by done. apply lookup_insert_eq.
      * exfalso. apply Hin. apply list_elem_of_fmap. eauto.
Qed.

Section Index.
Context `{Templates}.

(** X11. When the modules are processed without failure and none has the
    path index.html, BuildSite executes the module template once for each
    module, in input order, and then the index template once, with the
    given URL, index content and footer, and with a map that sends the
    import path of every module to its output path without the trailing
    index.html and has no other key. *)
Theorem index_template_context (url indexContent footer : string)
    (modules : list Module_) :
  processed url footer modules ->
  "index.html" ∉ (pathOf url <$> modules) ->
  exists r w' ctx,
    BuildSite url indexContent footer modules freshWorld = (r, w')
    /\ trace w' = (moduleCall footer <$> modules) ++ [ExecSiteIndex ctx]
    /\ idxURL ctx = url
    /\ idxContent ctx = indexContent
    /\ idxFooter ctx = footer
    /\ (forall m, m ∈ modules ->
        idxModules ctx !! ImportPath m
        = Some (strings.TrimSuffix (pathOf url m) "index.html")
        /\ strings.TrimSuffix (pathOf url m) "index.html" +:+ "index.html"
           = pathOf url m)
    /\ (forall k, k ∉ (ImportPath <$> modules) -> idxModules ctx !! k = None).
Proof.
  intros Hp Hin.
  destruct (BuildSite_processed url indexContent footer modules freshWorld Hp)
    as (w' & E & Ht).
  rewrite decide_False in Ht by done.
  eexists _, w', _. split; [exact E|]. split; [exact Ht|].
  repeat split.
  - simpl. by apply siteURLs_module.
  - destruct Hp as (Hpl & _). rewrite Forall_forall in Hpl.
    destruct (output_path_ends_with_index_aux m url) as (d & Ed & Htd & _).
    { by apply Hpl. }
    by rewrite Htd, Ed.
  - intros k Hk. simpl. rewrite siteURLs_other by done. apply lookup_empty.
Qed.

End Index.

Lemma index_template_context_witness :
  exists r w' ctx,
    BuildSite (H := plainTemplates) "example.org" "index" "footer"
      [exampleModule] freshWorld = (r, w')
    /\ trace w' = [moduleCall "footer" exampleModule; ExecSiteIndex ctx]
    /\ idxModules ctx !! "example.org/mod" = Some "/mod/".
Proof.
  assert (Hp : processed (H := plainTemplates) "example.org" "footer" [exampleModule]).
  { split; [|split].
    - by apply Forall_singleton.
    - apply NoDup_singleton.
    - by apply Forall_singleton. }
  destruct (index_template_context (H := plainTemplates)
              "example.org" "index" "footer" [exampleModule] Hp)
    as (r & w' & ctx & E & Ht & _ & _ & _ & Hm & _).
  { vm_compute. intros [[=]|[]%elem_of_nil]%elem_of_cons. }
  exists r, w', ctx. split; [exact E|]. split; [exact Ht|].
  destruct (Hm exampleModule) as [Hl _]; [left|]. exact Hl.
Defined.

Section Order.
Context `{Templates}.

Lemma buildModules_failure_trace (url footer : string)
    (pre post : list Module_) (m : Module_) (e : error)
    (urls : gmap string string) (w : World) :
  processed url footer pre ->
  moduleFailure url footer pre m = Some e ->
  exists w',
    buildModules url footer (pre ++ m :: post) ∅ urls w = (inl e, w')
    /\ trace w' = trace w ++ (moduleCall footer <$> pre)
         ++ match e with
            | errRenderHTML _ (errImportingTemplate _) => [moduleCall footer m]
            | _ => []
            end.
Proof.
  intros Hpre Hm. rewrite buildModules_app.
  destruct (buildModules_ok url footer pre ∅ urls w Hpre) as (w1 & -> & Ht).
  { intros; apply lookup_empty. }
  rewrite buildModules_cons. unfold moduleFailure in Hm. unfold pathOf at 1 2 3.
  destruct (getModuleHTMLPath m url) as [dest ok] eqn:Hg. simpl.
  destruct ok; simpl.
  2:{ injection Hm as <-. eexists. split; [done|]. by rewrite Ht, app_nil_r. }
  destruct (decide (dest ∈ pathOf url <$> pre)) as [Hin|Hin].
  - injection Hm as <-.
    destruct (sitePages url footer pre ∅ !! dest) eqn:E.
    + eexists. split; [done|]. by rewrite Ht, app_nil_r.
    + apply sitePages_lookup_None in E as [E _]. done.
  - rewrite (proj2 (sitePages_lookup_None url footer pre ∅ dest)); cycle 1.
    { split; [done|apply lookup_empty]. }
    unfold renderError in Hm.
    destruct (ValidateGoImport m) as [ev|] eqn:Hv.
    + rewrite (RenderSite_invalid _ _ _ _ Hv).
      rewrite (RenderSite_invalid _ _ _ _ Hv) in Hm. simpl in Hm.
      injection Hm as <-. eexists. split; [done|]. simpl.
      by rewrite Ht, app_nil_r.
    + rewrite (RenderSite_valid _ _ _ Hv).
      rewrite (RenderSite_valid _ _ _ Hv) in Hm. simpl in *.
      destruct (siteModuleTemplate _).2 as [et|]; [|done].
      simpl in *. injection Hm as <-. eexists. split; [done|]. simpl.
      by rewrite Ht, app_assoc.
Qed.

(** X12. When BuildSite stops at a module [m], the first module that
    cannot be processed, the module template has been executed for the
    modules before [m], in input order, and for [m] itself only when the
    failure is an error of its template; no template is executed for a
    later module and the index template is not executed. *)
Theorem failure_trace (url indexContent footer : string)
    (pre post : list Module_) (m : Module_) (e : error) :
  processed url footer pre ->
  moduleFailure url footer pre m = Some e ->
  exists w',
    BuildSite url indexContent footer (pre ++ m :: post) freshWorld
    = ((None, Some e), w')
    /\ trace w' = (moduleCall footer <$> pre)
         ++ match e with
            | errRenderHTML _ (errImportingTemplate _) => [moduleCall footer m]
            | _ => []
            end
    /\ ~ indexSynthesized w'
    /\ (ValidateGoImport m <> None -> trace w' = moduleCall footer <$> pre).
Proof.
  intros Hpre Hm. unfold BuildSite, bind, builderReset.
  destruct (buildModules_failure_trace url footer pre post m e ∅
              {| builder := ""; trace := trace freshWorld |} Hpre Hm)
    as (w' & -> & Ht).
  simpl in Ht. exists w'. split; [done|]. split; [done|]. split.
  - intros (ctx & Hc). rewrite Ht in Hc.
    apply elem_of_app in Hc as [(x & [=] & _)%list_elem_of_fmap|Hc].
    destruct e as [| | | | | | | | | | | | |ip [| | | | | | | | |te| | | | |]|];
      try (by apply elem_of_nil in Hc).
    by apply list_elem_of_singleton in Hc.
  - intros Hv. rewrite Ht.
    unfold moduleFailure in Hm.
    destruct (getModuleHTMLPath m url) as [dest [|]];
      [|injection Hm as <-; apply app_nil_r].
    destruct (decide _); [injection Hm as <-; apply app_nil_r|].
    unfold renderError in Hm.
    destruct (ValidateGoImport m) as [ev|] eqn:Hv'; [|done].
    rewrite (RenderSite_invalid _ _ _ _ Hv') in Hm. simpl in Hm.
    injection Hm as <-. apply app_nil_r.
Qed.

End Order.

Lemma failure_trace_witness :
  exists w',
    BuildSite (H := plainTemplates) "example.org" "index" "footer"
      ([exampleModule] ++ exampleModule :: [otherModule]) freshWorld
    = ((None, Some (errDuplicateDestination "/mod/index.html")), w')
    /\ trace w' = [moduleCall "footer" exampleModule].
Proof.
  assert (Hp : processed (H := plainTemplates) "example.org" "footer" [exampleModule]).
  { split; [|split].
    - by apply Forall_singleton.
    - apply NoDup_singleton.
    - by apply Forall_singleton. }
  destruct (failure_trace (H := plainTemplates) "example.org" "index" "footer"
              [exampleModule] [otherModule] exampleModule
              (errDuplicateDestination "/mod/index.html") Hp)
    as (w' & E & Ht & _); [reflexivity|].
  exists w'. split; [exact E|exact Ht].
Defined.

Section Permutation.
Context `{Templates}.

Lemma processed_Permutation (url footer : string) (l1 l2 : list Module_) :
  l1 ≡ₚ l2 -> processed url footer l1 -> processed url footer l2.
Proof.
  intros Hp (H1 & H2 & H3). split; [|split].
  - by rewrite <- Hp.
  - by rewrite <- Hp.
  - by rewrite <- Hp.
Qed.

Lemma sitePages_Permutation (url footer : string) (l1 l2 : list Module_) :
  l1 ≡ₚ l2 -> NoDup (pathOf url <$> l1) ->
  sitePages url footer l1 ∅ = sitePages url footer l2 ∅.
Proof.
  intros Hp Hn.
  assert (Hn2 : NoDup (pathOf url <$> l2)) by by rewrite <- Hp.
  apply map_eq. intros p.
  destruct (decide (p ∈ (pathOf url <$> l1))) as [Hin|Hin].
  - apply list_elem_of_fmap in Hin as (m & -> & Hm).
    rewrite !sitePages_page; [done|done|by rewrite <- Hp|done|done].
  - rewrite !(proj2 (sitePages_lookup_None _ _ _ _ _)); [done| |].
    + split; [by rewrite <- Hp|apply lookup_empty].
    + split; [done|apply lookup_empty].
Qed.

Lemma siteURLs_Permutation (url : string) (l1 l2 : list Module_) :
  l1 ≡ₚ l2 -> siteURLs url l1 ∅ = siteURLs url l2 ∅.
Proof.
  intros Hp. apply map_eq. intros k.
  destruct (decide (k ∈ (ImportPath <$> l1))) as [Hin|Hin].
  - apply list_elem_of_fmap in Hin as (m & -> & Hm).
    rewrite !siteURLs_module; [done|by rewrite <- Hp|done].
  - rewrite !siteURLs_other; [done|by rewrite <- Hp|done].
Qed.

(** X13. The result of a build without failure does not depend on the
    order of the descriptors: when the modules are processed without
    failure, BuildSite returns the same map and error for every
    permutation of them. *)
Theorem BuildSite_Permutation (url indexContent footer : string)
    (l1 l2 : list Module_) :
  processed url footer l1 ->
  l1 ≡ₚ l2 ->
  (BuildSite url indexContent footer l1 freshWorld).1
  = (BuildSite url indexContent footer l2 freshWorld).1.
Proof.
  intros Hp1 Hperm.
  pose proof (processed_Permutation url footer l1 l2 Hperm Hp1) as Hp2.
  destruct (BuildSite_processed url indexContent footer l1 freshWorld Hp1)
    as (w1 & -> & _).
  destruct (BuildSite_processed url indexContent footer l2 freshWorld Hp2)
    as (w2 & -> & _).
  cbn [fst].
  assert (Hs : sitePages url footer l1 ∅ = sitePages url footer l2 ∅)
    by (apply sitePages_Permutation; [done|apply Hp1]).
  assert (Hi : indexContext url indexContent footer l1
               = indexContext url indexContent footer l2).
  { unfold indexContext. by rewrite (siteURLs_Permutation url l1 l2 Hperm). }
  unfold indexError, indexPage. rewrite Hs, Hi.
  destruct (decide ("index.html" ∈ (pathOf url <$> l1))) as [Hin|Hin].
  - rewrite decide_True by by rewrite <- Hperm. done.
  - rewrite decide_False by by rewrite <- Hperm. done.
Qed.

End Permutation.

Lemma BuildSite_Permutation_witness :
  let root := mkModule "example.org" "git" "https://example.org/root" "" "" "" in
  (BuildSite (H := plainTemplates) "example.org" "index" "footer"
     [exampleModule; root] freshWorld).1
  = (BuildSite (H := plainTemplates) "example.org" "index" "footer"
       [root; exampleModule] freshWorld).1.
Proof.
  intros root.
  apply (BuildSite_Permutation (H := plainTemplates)).
  - split; [|split].
    + by repeat apply Forall_cons_2.
    + vm_compute. apply NoDup_cons_2.
      * intros [[=]|[]%elem_of_nil]%elem_of_cons.
      * apply NoDup_singleton.
    + by repeat apply Forall_cons_2.
  - apply Permutation_swap.
Defined.

(** ** site.go: import paths that differ in a trailing slash *)

Lemma trailing_slash_path (url : string) (m1 m2 : Module_) :
  placeable url m1 ->
  (forall p, ImportPath m1 <> p +:+ "/") ->
  ImportPath m2 = ImportPath m1 +:+ "/" ->
  getModuleHTMLPath m2 url = getModuleHTMLPath m1 url.
Proof.
  intros Hp Hn E.
  apply placeable_prefix in Hp as [t Ht].
  rewrite !getModuleHTMLPath_base, E, Ht.
  rewrite !(proj2 (HasPrefix_true _ _)); [|eauto|rewrite append_assoc; eauto].
  cbn [negb]. f_equal. f_equal.
  rewrite append_assoc, !dropBytes_app, TrimSuffix_app.
  rewrite TrimSuffix_no_suffix; [done|].
  intros p ->. apply (Hn (normalizedBase url +:+ p)).
  by rewrite Ht, append_assoc.
Qed.

Section Slash.
Context `{Templates}.

(** X14. Two import paths that differ only in one trailing slash have the
    same output path, so a site cannot hold both: when a module whose
    import path does not end with a slash is followed, after modules that
    are processed without failure, by a module with that import path and
    a slash, BuildSite returns the duplicate-destination error for the
    shared path and no map. *)
Theorem trailing_slash_collision (url indexContent footer : string)
    (pre post : list Module_) (m1 m2 : Module_) (w : World) :
  processed url footer pre ->
  m1 ∈ pre ->
  (forall p, ImportPath m1 <> p +:+ "/") ->
  ImportPath m2 = ImportPath m1 +:+ "/" ->
  getModuleHTMLPath m2 url = getModuleHTMLPath m1 url
  /\ (BuildSite url indexContent footer (pre ++ m2 :: post) w).1
     = (None, Some (errDuplicateDestination (pathOf url m1))).
Proof.
  intros Hpre Hm Hn E.
  assert (Hpl : placeable url m1).
  { destruct Hpre as (Hf & _). rewrite Forall_forall in Hf. by apply Hf. }
  pose proof (trailing_slash_path url m1 m2 Hpl Hn E) as Hg.
  split; [done|].
  assert (Hpath : pathOf url m2 = pathOf url m1) by (unfold pathOf; by rewrite Hg).
  assert (Hpl2 : placeable url m2) by (unfold placeable; by rewrite Hg).
  assert (Hin : pathOf url m2 ∈ (pathOf url <$> pre)).
  { rewrite Hpath. apply list_elem_of_fmap. eauto. }
  pose proof (proj1 (proj2 (moduleFailure_cases url footer pre m2)) Hpl2 Hin) as Hf.
  destruct (BuildSite_failure url indexContent footer pre post m2 _ w Hpre Hf)
    as (w' & -> & _).
  by rewrite Hpath.
Qed.

End Slash.

Lemma trailing_slash_collision_witness :
  (BuildSite (H := plainTemplates) "example.org" "index" "footer"
     ([exampleModule]
      ++ mkModule "example.org/mod/" "git" "https://example.org/mod" "" "" ""
         :: []) freshWorld).1
  = (None, Some (errDuplicateDestination "/mod/index.html")).
Proof.
  apply (trailing_slash_collision (H := plainTemplates) "example.org" "index"
           "footer" [exampleModule] [] exampleModule).
  - split; [|split].
    + by apply Forall_singleton.
    + apply NoDup_singleton.
    + by apply Forall_singleton.
  - left.
  - intros p E.
    assert (Hs : strings.HasSuffix (ImportPath exampleModule) "/" = true)
      by (apply HasSuffix_true; eauto).
    discriminate Hs.
  - reflexivity.
Defined.

(** ** site.go: the text of the pages *)

Section Pages.
Context `{Templates}.

Lemma renderedPage_valid (footer : string) (m : Module_) :
  ValidateGoImport m = None ->
  renderedPage footer m
  = (siteModuleTemplate {| ctxModule := m; ctxFooter := footer |}).1.
Proof.
  intros Hv. unfold renderedPage. by rewrite (RenderSite_valid _ _ _ Hv).
Qed.

(** X15. The builder is emptied before each page is rendered, so the
    pages do not run into each other: in a build without failure the text
    stored for a module is exactly what the module template wrote for that
    module and the footer, and the text stored at index.html, when no
    module has that path, is exactly what the index template wrote. *)
Theorem pages_are_template_output (url indexContent footer : string)
    (modules : list Module_) (w : World) :
  processed url footer modules ->
  ("index.html" ∉ (pathOf url <$> modules) ->
   indexError url indexContent footer modules = None) ->
  exists files,
    (BuildSite url indexContent footer modules w).1 = (Some files, None)
    /\ (forall m, m ∈ modules ->
        files !! pathOf url m
        = Some (siteModuleTemplate {| ctxModule := m; ctxFooter := footer |}).1)
    /\ ("index.html" ∉ (pathOf url <$> modules) ->
        files !! "index.html"
        = Some (siteIndexTemplate
                  {| idxURL := url; idxModules := siteURLs url modules ∅;
                     idxContent := indexContent; idxFooter := footer |}).1).
Proof.
  intros Hp Hi.
  destruct (BuildSite_processed url indexContent footer modules w Hp)
    as (w' & -> & _).
  cbn [fst].
  assert (Hpage : forall m, m ∈ modules ->
            sitePages url footer modules ∅ !! pathOf url m
            = Some (siteModuleTemplate {| ctxModule := m; ctxFooter := footer |}).1).
  { intros m Hm. rewrite sitePages_page; [|apply Hp|done].
    rewrite renderedPage_valid; [done|].
    destruct Hp as (_ & _ & Hr). rewrite Forall_forall in Hr.
    by destruct (proj1 (renderError_None footer m) (Hr m Hm)). }
  destruct (decide ("index.html" ∈ (pathOf url <$> modules))) as [Hin|Hin].
  - eexists. split; [done|]. split; [exact Hpage|done].
  - rewrite (Hi Hin). eexists. split; [done|]. split.
    + intros m Hm. rewrite lookup_insert_ne; [by apply Hpage|].
      intros E. apply Hin. rewrite E. apply list_elem_of_fmap. eauto.
    + intros _. apply lookup_insert_eq.
Qed.

End Pages.

Lemma pages_are_template_output_witness :
  exists files,
    (BuildSite (H := plainTemplates) "example.org" "index" "footer"
       [exampleModule] freshWorld).1 = (Some files, None)
    /\ files !! "/mod/index.html"
       = Some "example.org/mod git https://example.org/modfooter"
    /\ files !! "index.html" = Some "indexfooter".
Proof.
  destruct (pages_are_template_output (H := plainTemplates)
              "example.org" "index" "footer" [exampleModule] freshWorld)
    as (files & E & Hm & Hi).
  - split; [|split].
    + by apply Forall_singleton.
    + apply NoDup_singleton.
    + by apply Forall_singleton.
  - reflexivity.
  - exists files. split; [exact E|]. split.
    + apply (Hm exampleModule). left.
    + apply Hi. vm_compute. intros [[=]|[]%elem_of_nil]%elem_of_cons.
Defined.

(** ** site.go: a module directly under the base *)

Lemma hasByte_app_l (c : ascii) (a b : string) :
  hasByte c a -> hasByte c (a +:+ b).
Proof.
  intros (x & y & ->). exists x, (y +:+ b). by rewrite append_assoc.
Qed.

(** X16. A module whose import path is the normalized base, a slash and
    one plain path element (non-empty, without a slash, neither the dot
    nor the double dot) has the output path that is a slash, the element,
    and /index.html; its canonical relative URL is the element between
    two slashes. *)
Theorem single_element_path (m : Module_) (url name : string) :
  name <> "" -> ~ hasByte "/" name -> name <> "." -> name <> ".." ->
  ImportPath m = normalizedBase url +:+ "/" +:+ name ->
  getModuleHTMLPath m url = ("/" +:+ name +:+ "/index.html", true)
  /\ strings.TrimSuffix (pathOf url m) "index.html" = "/" +:+ name +:+ "/".
Proof.
  intros Hne Hsl Hd Hdd Hi.
  assert (Hg : getModuleHTMLPath m url = ("/" +:+ name +:+ "/index.html", true)).
  { rewrite getModuleHTMLPath_base, Hi.
    rewrite (proj2 (HasPrefix_true _ _)) by eauto.
    cbn [negb]. f_equal.
    rewrite dropBytes_app.
    rewrite TrimSuffix_no_suffix; cycle 1.
    { intros p E. apply Hsl. destruct p as [|c p].
      - injection E as E. change ("" +:+ name) with name in E. done.
      - rewrite !append_cons in E. injection E as _ E.
        change ("" +:+ name) with name in E. by exists p, "". }
    unfold filepath.Join. rewrite decide_False by done.
    change (strings.Join ["/" +:+ name; "index.html"] "/")
      with (String filepath.Separator (name +:+ String filepath.Separator "index.html")).
    unfold filepath.Clean. rewrite bool_decide_eq_true_2 by done.
    change (String filepath.Separator (name +:+ String filepath.Separator "index.html"))
      with ("" +:+ String filepath.Separator (name +:+ String filepath.Separator "index.html")).
    rewrite SplitByte_sep, SplitByte_app by done.
    change (strings.SplitByte "" filepath.Separator) with [""].
    change (strings.SplitByte "index.html" filepath.Separator) with ["index.html"].
    simpl fold_left. unfold filepath.cleanElem at 2.
    rewrite !(decide_False (P := name = _)) by done.
    done. }
  split; [done|].
  unfold pathOf. rewrite Hg. cbn [fst].
  change ("/" +:+ name +:+ "/index.html") with ("/" +:+ name +:+ "/" +:+ "index.html").
  rewrite <- !append_assoc. apply TrimSuffix_app.
Qed.

(* A string that contains the separator splits into two parts at least. *)
Lemma hasByte_SplitByte (s : string) (sep : ascii) :
  hasByte sep s -> (2 <= length (strings.SplitByte s sep))%nat.
Proof.
  intros (a & b & ->). rewrite SplitByte_sep, length_app.
  pose proof (SplitByte_nonempty a sep). pose proof (SplitByte_nonempty b sep).
  destruct (strings.SplitByte a sep), (strings.SplitByte b sep);
    simpl; try done; lia.
Qed.

Lemma single_element_path_witness :
  getModuleHTMLPath
    (GitForgeModule "go.tkw01536.de/ggman" "https://github.com/tkw1536/ggman" "main")
    "go.tkw01536.de"
  = ("/ggman/index.html", true).
Proof.
  apply (single_element_path
           (GitForgeModule "go.tkw01536.de/ggman" "https://github.com/tkw1536/ggman" "main")
           "go.tkw01536.de" "ggman"); try done.
  intros Hb%hasByte_SplitByte. vm_compute in Hb. lia.
Defined.
